(** * SNTP time synchronisation of Mongoose OS: fw/src/mgos_sntp.c

    A shallow embedding of the retry scheduler, the reply handler and the
    time-change observer registry of [mgos_sntp.c], followed by the
    properties of the module's specification.

    Conventions of the embedding:
    - a C [int] is a [Z]; every arithmetic operation of the source is
      followed by the 32-bit two's complement wrap-around ([Int.wrap]).
      Signed overflow is undefined in C, so the theorems about computed
      delays carry the hypothesis that the products fit in an [int];
    - a C [double] is an exact rational [Q]: comparison, addition and
      subtraction are the rational ones and rounding is not modelled;
    - a pointer to a connection is the connection's identifier, and the
      connection manager is the list of live connections;
    - the static [s_state] and the part of the outside world the module
      talks to (connections, timers, clock) are threaded explicitly;
    - results of external calls that the module cannot predict
      (connect succeeded or not, the random draw, the result of
      settimeofday, the local time) are read from an [env] record. *)

From Stdlib Require Import ZArith QArith List String Bool Lia Lqa.
Import ListNotations.

Local Open Scope Z_scope.

(* ------------------------------------------------------------------ *)
(** ** Machine integers *)

Module Int.

Definition INT_MIN : Z := - 2 ^ 31.
Definition INT_MAX : Z := 2 ^ 31 - 1.

Definition in_range (z : Z) : Prop := INT_MIN <= z <= INT_MAX.

(** Two's complement wrap-around of a mathematical integer to [int]. *)
Definition wrap (z : Z) : Z := (z + 2 ^ 31) mod 2 ^ 32 - 2 ^ 31.

Definition mul (a b : Z) : Z := wrap (a * b).


End Int.

(* ------------------------------------------------------------------ *)
(** ** Doubles as rationals *)

(** [x > y] on doubles. *)
Definition Qgtb (x y : Q) : bool := negb (Qle_bool x y).

(** [(double) z]. *)
Definition int_to_double (z : Z) : Q := inject_Z z.

(** [(int) x]: the fractional part is discarded (truncation toward zero). *)
Definition double_to_int (x : Q) : Z := Int.wrap (Qnum x ÷ Zpos (Qden x)).

(* ------------------------------------------------------------------ *)
(** ** Configuration: [struct sys_config_sntp] *)

Record sys_config_sntp := {
  enable : bool;
  server : option string;      (* [char *]: [None] is NULL *)
  update_interval : Z;
  retry_min : Z;
  retry_max : Z
}.

(* ------------------------------------------------------------------ *)
(** ** Connections and the connection manager *)

Inductive conn_handler := Handler_mgos_sntp_ev | Handler_other.

Record mg_connection := {
  conn_id : nat;
  flags : Z;
  ev_timer_time : Q;
  handler : conn_handler
}.

Definition MG_F_CLOSE_IMMEDIATELY : Z := Z.shiftl 1 11.

Definition set_flags (f : Z) (c : mg_connection) : mg_connection :=
  {| conn_id := conn_id c; flags := f;
     ev_timer_time := ev_timer_time c; handler := handler c |}.

Definition set_ev_timer_time (t : Q) (c : mg_connection) : mg_connection :=
  {| conn_id := conn_id c; flags := flags c;
     ev_timer_time := t; handler := handler c |}.

Definition is_sntp (c : mg_connection) : bool :=
  match handler c with Handler_mgos_sntp_ev => true | Handler_other => false end.

(** Events delivered to a connection handler; [MG_SNTP_REPLY] carries the
    [time] field of its [struct mg_sntp_message]. *)
Inductive mg_event :=
| MG_EV_CONNECT
| MG_SNTP_REPLY (time : Q)
| MG_SNTP_MALFORMED_REPLY
| MG_SNTP_FAILED
| MG_EV_CLOSE
| MG_EV_OTHER (ev : Z).

Inductive mgos_net_event :=
| MGOS_NET_EV_DISCONNECTED
| MGOS_NET_EV_CONNECTING
| MGOS_NET_EV_CONNECTED
| MGOS_NET_EV_IP_ACQUIRED.

(* ------------------------------------------------------------------ *)
(** ** The observer registry: [struct time_change_cb] *)

(** A callback pointer: the module's own [mgos_time_change_cb], or a
    function of another module, known by its address only. *)
Inductive cb_fun := Cb_mgos_time_change | Cb_extern (f : nat).

Record time_change_cb := {
  cb : cb_fun;
  cb_arg : nat
}.

(* ------------------------------------------------------------------ *)
(** ** The module state: [struct mgos_sntp_state] *)

Definition MGOS_INVALID_TIMER_ID : Z := 0.

Record mgos_sntp_state := {
  nc : option nat;                        (* [None] is NULL *)
  synced : bool;
  retry_timeout_ms : Z;
  retry_timer_id : Z;
  time_change_cbs : list time_change_cb   (* SLIST, head first *)
}.

Definition set_nc (v : option nat) (s : mgos_sntp_state) :=
  {| nc := v; synced := synced s; retry_timeout_ms := retry_timeout_ms s;
     retry_timer_id := retry_timer_id s; time_change_cbs := time_change_cbs s |}.

Definition set_synced (v : bool) (s : mgos_sntp_state) :=
  {| nc := nc s; synced := v; retry_timeout_ms := retry_timeout_ms s;
     retry_timer_id := retry_timer_id s; time_change_cbs := time_change_cbs s |}.

Definition set_retry_timeout_ms (v : Z) (s : mgos_sntp_state) :=
  {| nc := nc s; synced := synced s; retry_timeout_ms := v;
     retry_timer_id := retry_timer_id s; time_change_cbs := time_change_cbs s |}.

Definition set_retry_timer_id (v : Z) (s : mgos_sntp_state) :=
  {| nc := nc s; synced := synced s; retry_timeout_ms := retry_timeout_ms s;
     retry_timer_id := v; time_change_cbs := time_change_cbs s |}.

Definition set_time_change_cbs (v : list time_change_cb) (s : mgos_sntp_state) :=
  {| nc := nc s; synced := synced s; retry_timeout_ms := retry_timeout_ms s;
     retry_timer_id := retry_timer_id s; time_change_cbs := v |}.

(* ------------------------------------------------------------------ *)
(** ** The outside world *)

Record world := {
  conns : list mg_connection;      (* the manager's connections, in [mg_next] order *)
  next_conn : nat;                 (* next fresh connection identifier *)
  connects : list (option string); (* servers passed to [mg_sntp_connect], oldest first *)
  requests : list nat;             (* connections given to [mg_sntp_send_request] *)
  timers : list (Z * Z);           (* armed one-shot timers: identifier, delay in ms *)
  next_timer : Z;                  (* next fresh timer identifier *)
  sys_time : option (Z * Z);       (* last [timeval] accepted by [settimeofday] *)
  calls : list (time_change_cb * Q); (* observer invocations with their delta, oldest first *)
  net_handler : bool               (* [mgos_sntp_net_ev] is registered *)
}.

Definition set_conns (v : list mg_connection) (w : world) :=
  {| conns := v; next_conn := next_conn w; connects := connects w;
     requests := requests w; timers := timers w; next_timer := next_timer w;
     sys_time := sys_time w; calls := calls w; net_handler := net_handler w |}.

Definition set_timers (v : list (Z * Z)) (w : world) :=
  {| conns := conns w; next_conn := next_conn w; connects := connects w;
     requests := requests w; timers := v; next_timer := next_timer w;
     sys_time := sys_time w; calls := calls w; net_handler := net_handler w |}.

Definition set_sys_time (v : option (Z * Z)) (w : world) :=
  {| conns := conns w; next_conn := next_conn w; connects := connects w;
     requests := requests w; timers := timers w; next_timer := next_timer w;
     sys_time := v; calls := calls w; net_handler := net_handler w |}.

Definition set_calls (v : list (time_change_cb * Q)) (w : world) :=
  {| conns := conns w; next_conn := next_conn w; connects := connects w;
     requests := requests w; timers := timers w; next_timer := next_timer w;
     sys_time := sys_time w; calls := v; net_handler := net_handler w |}.

Definition set_requests (v : list nat) (w : world) :=
  {| conns := conns w; next_conn := next_conn w; connects := connects w;
     requests := v; timers := timers w; next_timer := next_timer w;
     sys_time := sys_time w; calls := calls w; net_handler := net_handler w |}.

Definition set_net_handler (v : bool) (w : world) :=
  {| conns := conns w; next_conn := next_conn w; connects := connects w;
     requests := requests w; timers := timers w; next_timer := next_timer w;
     sys_time := sys_time w; calls := calls w; net_handler := v |}.

(** The whole system: [s_state] and the world around it. *)
Record sys := { s_state : mgos_sntp_state; outside : world }.

(** What the environment answers during the handling of one event. *)
Record env := {
  connect_ok : bool;   (* [mg_sntp_connect] returns a connection *)
  rand_frac : Q;       (* position of the random draw inside its range *)
  settime_ok : bool;   (* [settimeofday] returns 0 *)
  now : Q              (* [mg_time()] *)
}.

(** A draw 0 <= frac <= 1, as [rand() / RAND_MAX] is. *)
Definition rand_ok (x : env) : Prop := (0 <= rand_frac x <= 1)%Q.

(* ------------------------------------------------------------------ *)
(** ** External collaborators *)

(** Modelled from the spec: [mgos_rand_range] (mgos_utils.c) is not part of
    the module; it draws from the range between its two arguments.  The
    draw is the point at fraction [frac] of the way from [from] to [to]. *)
Definition mgos_rand_range (from to frac : Q) : Q := (from + (to - from) * frac)%Q.

(** Modelled from the spec: [mgos_set_timer] arms a one-shot timer and
    returns its handle, a fresh identifier that is never the invalid one. *)
Definition mgos_set_timer (msecs : Z) (w : world) : Z * world :=
  (next_timer w,
   {| conns := conns w; next_conn := next_conn w; connects := connects w;
      requests := requests w; timers := timers w ++ [(next_timer w, msecs)];
      next_timer := next_timer w + 1; sys_time := sys_time w;
      calls := calls w; net_handler := net_handler w |}).

(** Modelled from the spec: [mgos_clear_timer] disarms the timer. *)
Definition mgos_clear_timer (id : Z) (w : world) : world :=
  set_timers (filter (fun t => negb (fst t =? id)) (timers w)) w.

(** Modelled from the spec: [mg_sntp_connect] returns a new connection
    driven by [mgos_sntp_ev], or NULL. *)
Definition mg_sntp_connect (srv : option string) (ok : bool) (w : world)
  : option nat * world :=
  if ok then
    (Some (next_conn w),
     {| conns := {| conn_id := next_conn w; flags := 0; ev_timer_time := 0;
                    handler := Handler_mgos_sntp_ev |} :: conns w;
        next_conn := S (next_conn w); connects := connects w ++ [srv];
        requests := requests w; timers := timers w; next_timer := next_timer w;
        sys_time := sys_time w; calls := calls w; net_handler := net_handler w |})
  else
    (None,
     {| conns := conns w; next_conn := next_conn w; connects := connects w ++ [srv];
        requests := requests w; timers := timers w; next_timer := next_timer w;
        sys_time := sys_time w; calls := calls w; net_handler := net_handler w |}).

(** [nc->flags |= f] for the connection that [c] points to. *)
Definition or_flags (c : nat) (f : Z) (w : world) : world :=
  set_conns
    (map (fun x => if Nat.eqb (conn_id x) c then set_flags (Z.lor (flags x) f) x else x)
         (conns w)) w.

(* ------------------------------------------------------------------ *)
(** ** The built-in observer, [mgos_time_change_cb] *)

Definition mgos_time_change_cb (delta : Q) (mgr : list mg_connection)
  : list mg_connection :=
  map (fun c =>
         if Qgtb (ev_timer_time c) 0
         then set_ev_timer_time (ev_timer_time c + delta)%Q c
         else c) mgr.

(** [tccb->cb(tccb->cb_arg, delta)]: the call is recorded; the body of the
    built-in observer runs on the manager, the body of a foreign observer
    is outside the module. *)
Definition call_cb (delta : Q) (w : world) (tccb : time_change_cb) : world :=
  let w1 := set_calls (calls w ++ [(tccb, delta)]) w in
  match cb tccb with
  | Cb_mgos_time_change => set_conns (mgos_time_change_cb delta (conns w1)) w1
  | Cb_extern _ => w1
  end.

(* ------------------------------------------------------------------ *)
(** ** The module's functions *)

Section Module_functions.

Variable scfg : sys_config_sntp.   (* [&get_cfg()->sntp] *)
Variable x : env.

Definition mgos_sntp_retry (sy : sys) : sys :=
  let s := s_state sy in
  if negb (enable scfg) then sy
  else if negb (retry_timer_id s =? MGOS_INVALID_TIMER_ID) then sy
  else
    let '(rt_ms, s1) :=
      if synced s then (Int.mul (update_interval scfg) 1000, s)
      else
        let rt_ms := Int.mul (retry_timeout_ms s) 2 in
        let rt_ms := if rt_ms <? Int.mul (retry_min scfg) 1000
                     then Int.mul (retry_min scfg) 1000 else rt_ms in
        let rt_ms := if rt_ms >? Int.mul (retry_max scfg) 1000
                     then Int.mul (retry_max scfg) 1000 else rt_ms in
        (rt_ms, set_retry_timeout_ms rt_ms s) in
    let rt_ms :=
      double_to_int (mgos_rand_range (int_to_double rt_ms * (9 # 10))
                                     (int_to_double rt_ms * (11 # 10))
                                     (rand_frac x)) in
    let '(id, w1) := mgos_set_timer rt_ms (outside sy) in
    {| s_state := set_retry_timer_id id s1; outside := w1 |}.

Definition mgos_sntp_ev (c : nat) (ev : mg_event) (sy : sys) : sys :=
  let s := s_state sy in
  let w := outside sy in
  match ev with
  | MG_EV_CONNECT =>
      {| s_state := s; outside := set_requests (requests w ++ [c]) w |}
  | MG_SNTP_REPLY time =>
      let delta := (time - now x)%Q in
      let tv_sec := double_to_int time in   (* [time_t] taken as 32-bit *)
      let tv_usec := double_to_int ((time - int_to_double tv_sec) * 1000000) in
      let w1 :=
        if settime_ok x
        then fold_left (call_cb delta) (time_change_cbs s)
                       (set_sys_time (Some (tv_sec, tv_usec)) w)
        else w in
      let s1 := set_synced true (set_retry_timeout_ms 0 s) in
      let w2 := or_flags c MG_F_CLOSE_IMMEDIATELY w1 in
      if negb (retry_timer_id s1 =? MGOS_INVALID_TIMER_ID)
      then {| s_state := set_retry_timer_id MGOS_INVALID_TIMER_ID s1;
              outside := mgos_clear_timer (retry_timer_id s1) w2 |}
      else {| s_state := s1; outside := w2 |}
  | MG_SNTP_MALFORMED_REPLY
  | MG_SNTP_FAILED =>
      {| s_state := s; outside := or_flags c MG_F_CLOSE_IMMEDIATELY w |}
  | MG_EV_CLOSE =>
      match nc s with
      | Some c' =>
          if Nat.eqb c' c
          then mgos_sntp_retry {| s_state := set_nc None s; outside := w |}
          else sy
      | None => sy
      end
  | MG_EV_OTHER _ => sy
  end.

Definition mgos_sntp_query (srv : option string) (sy : sys) : bool * sys :=
  let s := s_state sy in
  match nc s with
  | Some c =>
      (false,
       {| s_state := s; outside := or_flags c MG_F_CLOSE_IMMEDIATELY (outside sy) |})
  | None =>
      let '(r, w1) := mg_sntp_connect srv (connect_ok x) (outside sy) in
      (match r with Some _ => true | None => false end,
       {| s_state := set_nc r s; outside := w1 |})
  end.

Definition mgos_sntp_retry_timer_cb (sy : sys) : sys :=
  let sy1 := {| s_state := set_retry_timer_id MGOS_INVALID_TIMER_ID (s_state sy);
                outside := outside sy |} in
  let '(_, sy2) := mgos_sntp_query (server scfg) sy1 in
  mgos_sntp_retry sy2.

Definition mgos_sntp_add_time_change_cb (f : cb_fun) (arg : nat) (sy : sys) : sys :=
  let tccb := {| cb := f; cb_arg := arg |} in
  {| s_state := set_time_change_cbs (tccb :: time_change_cbs (s_state sy)) (s_state sy);
     outside := outside sy |}.

Definition mgos_sntp_net_ev (ev : mgos_net_event) (sy : sys) : sys :=
  match ev with
  | MGOS_NET_EV_IP_ACQUIRED => mgos_sntp_retry sy
  | _ => sy
  end.

Inductive mgos_init_result := MGOS_INIT_OK | MGOS_INIT_SNTP_INIT_FAILED.

(** The address of the manager, [mgos_get_mgr()]; there is one manager. *)
Definition mgos_get_mgr : nat := 0%nat.

Definition mgos_sntp_init (sy : sys) : mgos_init_result * sys :=
  if negb (enable scfg) then (MGOS_INIT_OK, sy)
  else
    match server scfg with
    | None => (MGOS_INIT_SNTP_INIT_FAILED, sy)
    | Some _ =>
        let sy1 := mgos_sntp_add_time_change_cb Cb_mgos_time_change mgos_get_mgr sy in
        (MGOS_INIT_OK,
         {| s_state := s_state sy1; outside := set_net_handler true (outside sy1) |})
    end.

End Module_functions.

(* ------------------------------------------------------------------ *)
(** ** The event loop *)

(** State at boot: [s_state] is a zero-initialised static, nothing is
    armed, connected or registered. *)
Definition s_state0 : mgos_sntp_state :=
  {| nc := None; synced := false; retry_timeout_ms := 0;
     retry_timer_id := MGOS_INVALID_TIMER_ID; time_change_cbs := [] |}.

Definition world0 : world :=
  {| conns := []; next_conn := 1%nat; connects := []; requests := [];
     timers := []; next_timer := 1; sys_time := None; calls := [];
     net_handler := false |}.

Definition sys0 : sys := {| s_state := s_state0; outside := world0 |}.

(** The system after [mgos_sntp_init] ran at boot. *)
Definition boot (scfg : sys_config_sntp) : sys := snd (mgos_sntp_init scfg sys0).

(** What can happen to the module on the single event loop. *)
Inductive event :=
| Ev_add_cb (f : cb_fun) (arg : nat)      (* another module registers an observer *)
| Ev_net (ev : mgos_net_event)            (* a network event reaches the registered handler *)
| Ev_timer (id : Z)                       (* the armed timer [id] expires *)
| Ev_conn (c : nat) (ev : mg_event).      (* the manager delivers [ev] for connection [c] *)

Definition timer_armed (id : Z) (w : world) : bool :=
  existsb (fun t => fst t =? id) (timers w).

Definition sntp_conn_live (c : nat) (w : world) : bool :=
  existsb (fun k => Nat.eqb (conn_id k) c && is_sntp k) (conns w).

(** The manager frees a connection once its handler has seen [MG_EV_CLOSE]. *)
Definition mg_destroy_conn (c : nat) (w : world) : world :=
  set_conns (filter (fun k => negb (Nat.eqb (conn_id k) c)) (conns w)) w.

(** One turn of the event loop; [None] when the event cannot occur in
    this state (no such timer, no such connection, handler not registered). *)
Definition dispatch (scfg : sys_config_sntp) (e : event) (x : env) (sy : sys)
  : option sys :=
  match e with
  | Ev_add_cb f arg => Some (mgos_sntp_add_time_change_cb f arg sy)
  | Ev_net ev =>
      if net_handler (outside sy) then Some (mgos_sntp_net_ev scfg x ev sy) else None
  | Ev_timer id =>
      if timer_armed id (outside sy)
      then Some (mgos_sntp_retry_timer_cb scfg x
                   {| s_state := s_state sy; outside := mgos_clear_timer id (outside sy) |})
      else None
  | Ev_conn c ev =>
      if sntp_conn_live c (outside sy)
      then
        let sy1 := mgos_sntp_ev scfg x c ev sy in
        match ev with
        | MG_EV_CLOSE =>
            Some {| s_state := s_state sy1; outside := mg_destroy_conn c (outside sy1) |}
        | _ => Some sy1
        end
      else None
  end.

(** A run of the event loop from a given state. *)
Fixpoint run (scfg : sys_config_sntp) (es : list (event * env)) (sy : sys)
  : option sys :=
  match es with
  | [] => Some sy
  | (e, x) :: es' =>
      match dispatch scfg e x sy with
      | Some sy' => run scfg es' sy'
      | None => None
      end
  end.

(* ------------------------------------------------------------------ *)
(** ** Vocabulary of the properties *)

(** The [struct timeval] that the reply handler builds from the [time] of
    a reply.  The product is exact here, where C rounds it to a double
    before the conversion, so [tv_usec] can differ by one from the
    hardware's; no property below is about its value. *)
Definition timeval_of (time : Q) : Z * Z :=
  let tv_sec := double_to_int time in
  (tv_sec, double_to_int ((time - int_to_double tv_sec) * 1000000)).

(** The delay handed to the timer for a pre-jitter value [rt_ms]: the
    last assignment to [rt_ms] in [mgos_sntp_retry]. *)
Definition jittered (rt_ms : Z) (frac : Q) : Z :=
  double_to_int (mgos_rand_range (int_to_double rt_ms * (9 # 10))
                                 (int_to_double rt_ms * (11 # 10)) frac).

(** [d] is [v] times a factor between 0.9 and 1.1. *)
Definition within_jitter (v d : Z) : Prop :=
  exists f : Q, (9 # 10 <= f <= 11 # 10)%Q /\ (inject_Z d == f * inject_Z v)%Q.

(** The pre-jitter delay of the backoff branch, as the source computes it. *)
Definition backoff_ms (scfg : sys_config_sntp) (old : Z) : Z :=
  let rt_ms := Int.mul old 2 in
  let rt_ms := if rt_ms <? Int.mul (retry_min scfg) 1000
               then Int.mul (retry_min scfg) 1000 else rt_ms in
  if rt_ms >? Int.mul (retry_max scfg) 1000
  then Int.mul (retry_max scfg) 1000 else rt_ms.

(** The retry bounds and the doubled backoff fit in an [int]. *)
Definition no_overflow (scfg : sys_config_sntp) (old : Z) : Prop :=
  Int.in_range (retry_min scfg * 1000) /\
  Int.in_range (retry_max scfg * 1000) /\
  Int.in_range (old * 2).


(** Nothing armed, nothing connected. *)
Definition quiet (sy : sys) : Prop :=
  timers (outside sy) = [] /\
  retry_timer_id (s_state sy) = MGOS_INVALID_TIMER_ID /\
  nc (s_state sy) = None /\
  conns (outside sy) = [] /\
  connects (outside sy) = [].

(** The live SNTP sessions: the manager's connections driven by
    [mgos_sntp_ev]. *)
Definition sessions (w : world) : list nat :=
  map conn_id (filter is_sntp (conns w)).

(** The sessions that [s_state.nc] keeps track of. *)
Definition tracked (s : mgos_sntp_state) : list nat :=
  match nc s with Some c => [c] | None => [] end.

(** Every live session is the tracked one. *)
Definition one_session (sy : sys) : Prop :=
  sessions (outside sy) = tracked (s_state sy).

(** The fields the backoff depends on are the same in both states. *)
Definition same_backoff (sy sy' : sys) : Prop :=
  synced (s_state sy') = synced (s_state sy) /\
  retry_timeout_ms (s_state sy') = retry_timeout_ms (s_state sy) /\
  retry_timer_id (s_state sy') = retry_timer_id (s_state sy) /\
  timers (outside sy') = timers (outside sy) /\
  next_timer (outside sy') = next_timer (outside sy).


Definition is_reply (e : event) : bool :=
  match e with
  | Ev_conn _ (MG_SNTP_REPLY _) => true
  | _ => false
  end.

(** A sequence of events without a reply: every attempt in it fails. *)
Definition failures (es : list (event * env)) : bool :=
  forallb (fun ex => negb (is_reply (fst ex))) es.

(** Consecutive expiries of the timers [k], [k + 1], ... *)
Fixpoint timer_fires (k : Z) (xs : list env) : list (event * env) :=
  match xs with
  | [] => []
  | x :: xs' => (Ev_timer k, x) :: timer_fires (k + 1) xs'
  end.

(** Registering the observers of [os], first to last. *)
Definition register_all (os : list time_change_cb) (sy : sys) : sys :=
  fold_left (fun sy o => mgos_sntp_add_time_change_cb (cb o) (cb_arg o) sy) os sy.

Definition time_change_cb_eq_dec (a b : time_change_cb) : {a = b} + {a <> b}.
Proof. repeat decide equality. Defined.

(* ------------------------------------------------------------------ *)
(** ** Sample configurations, answers of the environment and runs *)


Definition steady_cfg : sys_config_sntp :=
  {| enable := true; server := Some "pool.ntp.org"%string;
     update_interval := 7200; retry_min := 10; retry_max := 300 |}.

Definition disabled_cfg : sys_config_sntp :=
  {| enable := false; server := Some "pool.ntp.org"%string;
     update_interval := 7200; retry_min := 10; retry_max := 300 |}.

(** Enabled, with a NULL server. *)
Definition no_server_cfg : sys_config_sntp :=
  {| enable := true; server := None;
     update_interval := 7200; retry_min := 10; retry_max := 300 |}.




(** An update interval whose milliseconds do not fit in an [int]. *)
Definition long_interval_cfg : sys_config_sntp :=
  {| enable := true; server := Some "pool.ntp.org"%string;
     update_interval := 3000000; retry_min := 10; retry_max := 300 |}.


(** Connect succeeds, the draw is the middle of the range, the clock can
    be set, the local time is 5. *)
Definition mid_draw : env :=
  {| connect_ok := true; rand_frac := 1 # 2; settime_ok := true; now := 5 |}.

(** Connect fails and the draw is the low end of the range. *)
Definition low_draw : env :=
  {| connect_ok := false; rand_frac := 0; settime_ok := true; now := 5 |}.

(** As [mid_draw], but [settimeofday] fails. *)
Definition failing_clock : env :=
  {| connect_ok := true; rand_frac := 1 # 2; settime_ok := false; now := 5 |}.

(** A synced state with session 1 tracked and no timer armed. *)
Definition steady_sys : sys :=
  {| s_state := {| nc := Some 1%nat; synced := true; retry_timeout_ms := 0;
                   retry_timer_id := MGOS_INVALID_TIMER_ID; time_change_cbs := [] |};
     outside := world0 |}.

Definition sample_mgr : list mg_connection :=
  [ {| conn_id := 1; flags := 0; ev_timer_time := 12 # 1; handler := Handler_other |};
    {| conn_id := 2; flags := 4; ev_timer_time := 0; handler := Handler_mgos_sntp_ev |};
    {| conn_id := 3; flags := 0; ev_timer_time := (-3) # 2; handler := Handler_other |} ].

Definition observer_a : time_change_cb := {| cb := Cb_extern 1; cb_arg := 10 |}.
Definition observer_b : time_change_cb := {| cb := Cb_extern 2; cb_arg := 20 |}.


(** The link comes up, then the first timer expires and opens session 1. *)
Definition first_attempt : list (event * env) :=
  [(Ev_net MGOS_NET_EV_IP_ACQUIRED, mid_draw); (Ev_timer 1, mid_draw)].

(** The state [first_attempt] leads to: not synced, session 1 open, the
    safety-net timer 2 armed, a backoff of 20000 ms. *)
Definition before_reply : sys :=
  Eval vm_compute in
    match run steady_cfg first_attempt (boot steady_cfg) with
    | Some sy => sy
    | None => sys0
    end.

(** Three timer expiries after the link came up, none answered. *)
Definition three_failures : list (event * env) :=
  [(Ev_net MGOS_NET_EV_IP_ACQUIRED, mid_draw);
   (Ev_timer 1, mid_draw); (Ev_timer 2, mid_draw); (Ev_timer 3, mid_draw)].

Definition after_three_failures : sys :=
  Eval vm_compute in
    match run steady_cfg three_failures (boot steady_cfg) with
    | Some sy => sy
    | None => sys0
    end.

(* ------------------------------------------------------------------ *)
(** ** Vocabulary of the further properties *)

(** The armed timers are the one that [retry_timer_id] names, if any, and
    the timer service has never handed out the invalid identifier. *)
Definition timer_inv (sy : sys) : Prop :=
  1 <= next_timer (outside sy) /\
  ((retry_timer_id (s_state sy) = MGOS_INVALID_TIMER_ID /\ timers (outside sy) = []) \/
   (exists d, timers (outside sy) = [(retry_timer_id (s_state sy), d)] /\
              1 <= retry_timer_id (s_state sy) < next_timer (outside sy))).

(** Every live session is tracked, the armed timer is the tracked one, and
    once the scheduler has armed its first timer it never lets go: a
    timer is pending or a session is open. *)
Definition alive_inv (sy : sys) : Prop :=
  timer_inv sy /\
  one_session sy /\
  (1 < next_timer (outside sy) ->
   retry_timer_id (s_state sy) <> MGOS_INVALID_TIMER_ID \/ nc (s_state sy) <> None).

(** The observers that the events of a run register, first to last. *)
Fixpoint registrations (es : list (event * env)) : list time_change_cb :=
  match es with
  | [] => []
  | (Ev_add_cb f arg, _) :: es' => {| cb := f; cb_arg := arg |} :: registrations es'
  | _ :: es' => registrations es'
  end.

Definition is_builtin (o : time_change_cb) : bool :=
  match cb o with Cb_mgos_time_change => true | Cb_extern _ => false end.

(** How many entries of a registry are the built-in observer. *)
Definition builtin_count (l : list time_change_cb) : nat :=
  List.length (filter is_builtin l).

(** The built-in observer as [mgos_sntp_init] registers it. *)
Definition builtin_observer : time_change_cb :=
  {| cb := Cb_mgos_time_change; cb_arg := mgos_get_mgr |}.

(** A run in which session 1 is answered after two foreign observers
    were registered. *)
Definition answered_run : list (event * env) :=
  [(Ev_add_cb (Cb_extern 1) 10%nat, mid_draw);
   (Ev_net MGOS_NET_EV_IP_ACQUIRED, mid_draw);
   (Ev_add_cb (Cb_extern 2) 20%nat, mid_draw);
   (Ev_timer 1, mid_draw);
   (Ev_conn 1%nat MG_EV_CONNECT, mid_draw);
   (Ev_conn 1%nat (MG_SNTP_REPLY 100), mid_draw)].

Definition after_answer : sys :=
  Eval vm_compute in
    match run steady_cfg answered_run (boot steady_cfg) with
    | Some sy => sy
    | None => sys0
    end.

(** A state with the built-in observer registered, session 2 tracked and
    the connections of [sample_mgr] in the manager. *)
Definition sample_sys : sys :=
  {| s_state := {| nc := Some 2%nat; synced := false; retry_timeout_ms := 10000;
                   retry_timer_id := 1; time_change_cbs := [builtin_observer] |};
     outside := set_conns sample_mgr (set_timers [(1, 10000)] world0) |}.

(** The module state of [before_reply], with a manager that holds
    session 1 and two connections of other modules. *)
Definition busy_sys : sys :=
  {| s_state := s_state before_reply;
     outside :=
       set_conns
         [ {| conn_id := 1; flags := 0; ev_timer_time := 0;
              handler := Handler_mgos_sntp_ev |};
           {| conn_id := 7; flags := 0; ev_timer_time := 12 # 1; handler := Handler_other |};
           {| conn_id := 8; flags := 4; ev_timer_time := (-3) # 2; handler := Handler_other |} ]
         (outside before_reply) |}.

(** A step that leaves the regime alone: [synced] keeps its value, and
    under [synced] the backoff keeps its value too. *)
Definition keeps_regime (sy sy' : sys) : Prop :=
  synced (s_state sy') = synced (s_state sy) /\
  (synced (s_state sy) = true ->
   retry_timeout_ms (s_state sy') = retry_timeout_ms (s_state sy)).

(** Under [synced] the backoff is 0. *)
Definition steady_inv (sy : sys) : Prop :=
  synced (s_state sy) = true -> retry_timeout_ms (s_state sy) = 0.

(** The run [answered_run], then the close of session 1, a failed second
    attempt and its close. *)
Definition failure_after_sync : list (event * env) :=
  [(Ev_conn 1%nat MG_EV_CLOSE, mid_draw);
   (Ev_timer 3, mid_draw);
   (Ev_conn 2%nat MG_SNTP_FAILED, mid_draw);
   (Ev_conn 2%nat MG_EV_CLOSE, mid_draw)].

Definition after_late_failure : sys :=
  Eval vm_compute in
    match run steady_cfg failure_after_sync after_answer with
    | Some sy => sy
    | None => sys0
    end.

(** How many events of a run are timer expiries. *)
Fixpoint timer_events (es : list (event * env)) : nat :=
  match es with
  | [] => 0
  | (Ev_timer _, _) :: es' => S (timer_events es')
  | _ :: es' => timer_events es'
  end.

(** Every call of [mg_sntp_connect] so far passed the configured server,
    and none was made if the server is NULL. *)
Definition connects_inv (scfg : sys_config_sntp) (sy : sys) : Prop :=
  Forall (fun srv => srv = server scfg) (connects (outside sy)) /\
  (server scfg = None ->
   connects (outside sy) = [] /\ timers (outside sy) = [] /\
   conns (outside sy) = [] /\
   (enable scfg = true -> net_handler (outside sy) = false)).

(** Before the first sync, with a backoff of 0 and every armed timer due
    at once. *)
Definition spin_inv (sy : sys) : Prop :=
  synced (s_state sy) = false /\
  retry_timeout_ms (s_state sy) = 0 /\
  Forall (fun t => snd t = 0) (timers (outside sy)).

(** Retry bounds with a minimum of 0. *)
Definition zero_min_cfg : sys_config_sntp :=
  {| enable := true; server := Some "pool.ntp.org"%string;
     update_interval := 7200; retry_min := 0; retry_max := 300 |}.

Definition after_three_spins : sys :=
  Eval vm_compute in
    match run zero_min_cfg three_failures (boot zero_min_cfg) with
    | Some sy => sy
    | None => sys0
    end.

(* ------------------------------------------------------------------ *)
(** * Properties *)

(** ** Machine integers and doubles *)

Module IntFacts.

Import Int.


Lemma wrap_small z : in_range z -> wrap z = z.
Proof.
  unfold in_range, wrap, INT_MIN, INT_MAX. intros H.
  rewrite Z.mod_small; lia.
Qed.

Lemma mul_small a b : in_range (a * b) -> mul a b = a * b.
Proof. apply wrap_small. Qed.

End IntFacts.

Lemma Qgtb_true x y : Qgtb x y = true <-> (y < x)%Q.
Proof.
  unfold Qgtb. rewrite negb_true_iff, <- not_true_iff_false, Qle_bool_iff.
  split; [apply Qnot_le_lt | apply Qlt_not_le].
Qed.

Lemma Qgtb_false x y : Qgtb x y = false <-> (x <= y)%Q.
Proof.
  unfold Qgtb. rewrite negb_false_iff. apply Qle_bool_iff.
Qed.

(** ** Truncation and the jittered delay *)

(** A rational between two integers truncates to an integer between them. *)
Lemma trunc_between (lo hi : Z) (q : Q) :
  (inject_Z lo <= q)%Q -> (q <= inject_Z hi)%Q ->
  lo <= Qnum q ÷ Zpos (Qden q) <= hi.
Proof.
  destruct q as [n d]. unfold Qle, inject_Z. simpl. intros Hlo Hhi.
  rewrite Z.mul_1_r in Hlo, Hhi. split.
  - rewrite <- (Z.quot_mul lo (Zpos d)) by lia.
    apply Z.quot_le_mono; lia.
  - rewrite <- (Z.quot_mul hi (Zpos d)) by lia.
    apply Z.quot_le_mono; lia.
Qed.

(** The draw lies between the two ends of its range, whichever is larger. *)
Lemma mgos_rand_range_between (from to frac : Q) :
  (0 <= frac <= 1)%Q ->
  ((from <= to -> from <= mgos_rand_range from to frac <= to) /\
   (to <= from -> to <= mgos_rand_range from to frac <= from))%Q.
Proof.
  unfold mgos_rand_range. intros [H0 H1]. split; intros Hle; split; nra.
Qed.

Lemma within_jitter_bounds (v d : Z) :
  Z.min (9 * v) (11 * v) <= 10 * d <= Z.max (9 * v) (11 * v) -> within_jitter v d.
Proof.
  intros H. unfold within_jitter.
  destruct (Z.lt_trichotomy v 0) as [Hneg | [Hz | Hpos]].
  - exists ((- d) # Z.to_pos (- v)). unfold Qle, Qeq, Qmult, inject_Z; cbn [Qnum Qden].
    rewrite ?Pos2Z.inj_mul, !Z2Pos.id by lia. repeat split; lia.
  - subst v. exists 1%Q. assert (d = 0) by lia. subst d.
    unfold Qle, Qeq; simpl. repeat split; lia.
  - exists (d # Z.to_pos v). unfold Qle, Qeq, Qmult, inject_Z; cbn [Qnum Qden].
    rewrite ?Pos2Z.inj_mul, !Z2Pos.id by lia. repeat split; lia.
Qed.


(** For a pre-jitter value that is a multiple of 10 ms and whose 1.1-fold
    fits in an [int], the jittered delay is that value times a factor in
    [0.9, 1.1]. *)
Lemma jittered_within (rt_ms : Z) (frac : Q) :
  (0 <= frac <= 1)%Q ->
  (10 | rt_ms) ->
  10 * Int.INT_MIN <= 11 * rt_ms <= 10 * Int.INT_MAX ->
  within_jitter rt_ms (jittered rt_ms frac).
Proof.
  intros Hf [k Hk] Hr. subst rt_ms.
  apply within_jitter_bounds.
  unfold jittered, double_to_int, int_to_double.
  set (q := mgos_rand_range _ _ _).
  assert (Hq : (inject_Z (Z.min (9 * k) (11 * k)) <= q)%Q /\
               (q <= inject_Z (Z.max (9 * k) (11 * k)))%Q).
  { pose proof (mgos_rand_range_between
                  (inject_Z (k * 10) * (9 # 10)) (inject_Z (k * 10) * (11 # 10)) frac Hf)
      as [Hup Hdown]. fold q in Hup, Hdown.
    assert (E9 : (inject_Z (k * 10) * (9 # 10) == inject_Z (9 * k))%Q).
    { unfold Qeq, Qmult, inject_Z; cbn [Qnum Qden]. lia. }
    assert (E11 : (inject_Z (k * 10) * (11 # 10) == inject_Z (11 * k))%Q).
    { unfold Qeq, Qmult, inject_Z; cbn [Qnum Qden]. lia. }
    rewrite E9, E11 in Hup, Hdown. rewrite <- !Zle_Qle in Hup, Hdown.
    destruct (Z.le_ge_cases k 0) as [Hk | Hk].
    - rewrite Z.min_r, Z.max_l by lia. apply Hdown. lia.
    - rewrite Z.min_l, Z.max_r by lia. apply Hup. lia. }
  destruct Hq as [Hlo Hhi].
  pose proof (trunc_between _ _ _ Hlo Hhi) as Ht.
  rewrite IntFacts.wrap_small by (unfold Int.in_range, Int.INT_MIN, Int.INT_MAX in *; lia).
  lia.
Qed.

(* ------------------------------------------------------------------ *)
(** ** The retry scheduler, [mgos_sntp_retry] *)

Lemma backoff_ms_clamp scfg old :
  no_overflow scfg old ->
  backoff_ms scfg old =
  Z.min (retry_max scfg * 1000) (Z.max (retry_min scfg * 1000) (old * 2)).
Proof.
  intros (Hmin & Hmax & Hold). unfold backoff_ms.
  rewrite !IntFacts.mul_small by assumption.
  destruct (Z.ltb_spec (old * 2) (retry_min scfg * 1000));
    match goal with |- context [?a >? ?b] => rewrite (Z.gtb_ltb a b);
      destruct (Z.ltb_spec b a) end; lia.
Qed.

Lemma mgos_sntp_retry_disabled scfg x sy :
  enable scfg = false -> mgos_sntp_retry scfg x sy = sy.
Proof. intros H. unfold mgos_sntp_retry. rewrite H. reflexivity. Qed.

Lemma mgos_sntp_retry_armed scfg x sy :
  retry_timer_id (s_state sy) <> MGOS_INVALID_TIMER_ID ->
  mgos_sntp_retry scfg x sy = sy.
Proof.
  intros H. unfold mgos_sntp_retry.
  destruct (enable scfg); [|reflexivity].
  apply Z.eqb_neq in H. rewrite H. reflexivity.
Qed.

(** What [mgos_sntp_retry] does when it gets past its two guards. *)
Lemma mgos_sntp_retry_arms scfg x sy :
  enable scfg = true ->
  retry_timer_id (s_state sy) = MGOS_INVALID_TIMER_ID ->
  mgos_sntp_retry scfg x sy =
  let s := s_state sy in
  let rt_ms := if synced s then Int.mul (update_interval scfg) 1000
               else backoff_ms scfg (retry_timeout_ms s) in
  let s1 := if synced s then s else set_retry_timeout_ms rt_ms s in
  {| s_state := set_retry_timer_id (next_timer (outside sy)) s1;
     outside := snd (mgos_set_timer (jittered rt_ms (rand_frac x)) (outside sy)) |}.
Proof.
  intros He Ht. unfold mgos_sntp_retry. rewrite He, Ht. cbn [negb Z.eqb MGOS_INVALID_TIMER_ID].
  destruct (synced (s_state sy)); reflexivity.
Qed.

(** [mgos_sntp_retry] never touches the connections, the session handle,
    the registry or the [synced] flag, and arms at most one timer. *)
Lemma mgos_sntp_retry_frame scfg x sy :
  let sy' := mgos_sntp_retry scfg x sy in
  nc (s_state sy') = nc (s_state sy) /\
  synced (s_state sy') = synced (s_state sy) /\
  time_change_cbs (s_state sy') = time_change_cbs (s_state sy) /\
  conns (outside sy') = conns (outside sy) /\
  connects (outside sy') = connects (outside sy) /\
  calls (outside sy') = calls (outside sy) /\
  net_handler (outside sy') = net_handler (outside sy).
Proof.
  cbv zeta.
  destruct (enable scfg) eqn:He;
    [|rewrite mgos_sntp_retry_disabled by assumption; repeat split].
  destruct (Z.eq_dec (retry_timer_id (s_state sy)) MGOS_INVALID_TIMER_ID) as [Ht | Ht];
    [|rewrite mgos_sntp_retry_armed by assumption; repeat split].
  rewrite mgos_sntp_retry_arms by assumption. cbv zeta.
  destruct (synced (s_state sy)) eqn:Hs; cbn; rewrite ?Hs; repeat split.
Qed.

(** The module state after a reply: whatever [settimeofday] returned, the
    backoff is reset, [synced] is set and no timer identifier is kept. *)
Lemma mgos_sntp_ev_reply_s_state scfg x c time sy :
  s_state (mgos_sntp_ev scfg x c (MG_SNTP_REPLY time) sy) =
  {| nc := nc (s_state sy); synced := true; retry_timeout_ms := 0;
     retry_timer_id := MGOS_INVALID_TIMER_ID;
     time_change_cbs := time_change_cbs (s_state sy) |}.
Proof.
  unfold mgos_sntp_ev. cbn [set_synced set_retry_timeout_ms retry_timer_id].
  destruct (retry_timer_id (s_state sy) =? MGOS_INVALID_TIMER_ID) eqn:E; cbn.
  - apply Z.eqb_eq in E. unfold set_synced, set_retry_timeout_ms. cbn.
    rewrite E. reflexivity.
  - reflexivity.
Qed.

(** The close of the tracked session clears the handle and schedules. *)
Lemma mgos_sntp_ev_close_tracked scfg x c sy :
  nc (s_state sy) = Some c ->
  mgos_sntp_ev scfg x c MG_EV_CLOSE sy =
  mgos_sntp_retry scfg x {| s_state := set_nc None (s_state sy); outside := outside sy |}.
Proof.
  intros H. unfold mgos_sntp_ev. rewrite H, Nat.eqb_refl. reflexivity.
Qed.

(** The steady-state branch, exactly: the pre-jitter delay is the update
    interval and only the timer fields change. *)
Lemma mgos_sntp_retry_steady_arms scfg x sy :
  enable scfg = true ->
  synced (s_state sy) = true ->
  retry_timer_id (s_state sy) = MGOS_INVALID_TIMER_ID ->
  let sy' := mgos_sntp_retry scfg x sy in
  timers (outside sy') =
    timers (outside sy) ++
    [(retry_timer_id (s_state sy'),
      jittered (Int.mul (update_interval scfg) 1000) (rand_frac x))] /\
  retry_timeout_ms (s_state sy') = retry_timeout_ms (s_state sy) /\
  synced (s_state sy') = true.
Proof.
  intros He Hs Ht. cbv zeta.
  rewrite mgos_sntp_retry_arms by assumption. cbv zeta. rewrite Hs.
  cbn. rewrite Hs. repeat split.
Qed.

(** The steady-state branch: with [synced] set, the timer is armed at the
    update interval times a jitter factor and the backoff is left alone. *)
Lemma mgos_sntp_retry_steady scfg x sy :
  enable scfg = true ->
  synced (s_state sy) = true ->
  retry_timer_id (s_state sy) = MGOS_INVALID_TIMER_ID ->
  rand_ok x ->
  10 * Int.INT_MIN <= 11 * (update_interval scfg * 1000) <= 10 * Int.INT_MAX ->
  let sy' := mgos_sntp_retry scfg x sy in
  exists d,
    timers (outside sy') = timers (outside sy) ++ [(retry_timer_id (s_state sy'), d)] /\
    within_jitter (update_interval scfg * 1000) d /\
    retry_timeout_ms (s_state sy') = retry_timeout_ms (s_state sy).
Proof.
  intros He Hs Ht Hx Hr. cbv zeta.
  destruct (mgos_sntp_retry_steady_arms scfg x sy He Hs Ht) as (Htm & Hrto & _).
  rewrite IntFacts.mul_small in Htm
    by (unfold Int.in_range, Int.INT_MIN, Int.INT_MAX in *; lia).
  eexists. split; [exact Htm|]. split; [|exact Hrto].
  apply jittered_within; [exact Hx | | exact Hr].
  exists (update_interval scfg * 100). lia.
Qed.

(** C5, as stated, fails: with an update interval of 3000000 s the
    product [update_interval * 1000] does not fit in an [int]; in a synced
    state the timer is armed with -1294967296 ms, which is not
    3000000000 times a factor in [0.9, 1.1]. *)
Lemma steady_delay_overflows :
  let sy' := mgos_sntp_retry long_interval_cfg mid_draw steady_sys in
  synced (s_state steady_sys) = true /\
  retry_timer_id (s_state steady_sys) = MGOS_INVALID_TIMER_ID /\
  timers (outside sy') = [(retry_timer_id (s_state sy'), -1294967296)] /\
  ~ within_jitter (update_interval long_interval_cfg * 1000) (-1294967296).
Proof.
  cbv zeta. split; [reflexivity|]. split; [reflexivity|]. split; [reflexivity|].
  intros (f & [Hlo _] & Heq). destruct f as [a b].
  unfold Qle, Qeq, Qmult, inject_Z in *. cbn [Qnum Qden] in *.
  change (update_interval long_interval_cfg * 1000) with 3000000000 in Heq.
  rewrite Pos2Z.inj_mul in Heq. lia.
Qed.

(** C5, amended. Provided the 1.1-fold of [update_interval * 1000] fits
    in an [int] (in either direction) and the feature is enabled: once
    [synced] is set, the delay that [mgos_sntp_retry] arms is
    [update_interval * 1000] times a jitter factor in [0.9, 1.1], and the
    steady-state branch leaves [retry_timeout_ms] as it was.  A reply puts
    the module in that regime whatever backoff had accumulated: the close
    of the replying session arms exactly that delay. *)
Theorem steady_state_delay scfg x sy :
  enable scfg = true ->
  rand_ok x ->
  10 * Int.INT_MIN <= 11 * (update_interval scfg * 1000) <= 10 * Int.INT_MAX ->
  (synced (s_state sy) = true ->
   retry_timer_id (s_state sy) = MGOS_INVALID_TIMER_ID ->
   let sy' := mgos_sntp_retry scfg x sy in
   exists d,
     timers (outside sy') = timers (outside sy) ++ [(retry_timer_id (s_state sy'), d)] /\
     within_jitter (update_interval scfg * 1000) d /\
     retry_timeout_ms (s_state sy') = retry_timeout_ms (s_state sy)) /\
  (forall x1 c time,
     nc (s_state sy) = Some c ->
     let sy1 := mgos_sntp_ev scfg x1 c (MG_SNTP_REPLY time) sy in
     let sy2 := mgos_sntp_ev scfg x c MG_EV_CLOSE sy1 in
     synced (s_state sy1) = true /\
     exists d,
       timers (outside sy2) = timers (outside sy1) ++ [(retry_timer_id (s_state sy2), d)] /\
       within_jitter (update_interval scfg * 1000) d /\
       retry_timeout_ms (s_state sy2) = 0).
Proof.
  intros He Hx Hr. split.
  - intros Hs Ht. apply mgos_sntp_retry_steady; assumption.
  - intros x1 c time Hnc. cbv zeta.
    pose proof (mgos_sntp_ev_reply_s_state scfg x1 c time sy) as Hst.
    remember (mgos_sntp_ev scfg x1 c (MG_SNTP_REPLY time) sy) as sy1 eqn:Esy1.
    clear Esy1.
    split; [rewrite Hst; reflexivity|].
    rewrite (mgos_sntp_ev_close_tracked scfg x c sy1)
      by (rewrite Hst; exact Hnc).
    set (cleared := {| s_state := _; outside := outside sy1 |}).
    assert (Hs : synced (s_state cleared) = true)
      by (unfold cleared; cbn; rewrite Hst; reflexivity).
    assert (Ht : retry_timer_id (s_state cleared) = MGOS_INVALID_TIMER_ID)
      by (unfold cleared; cbn; rewrite Hst; reflexivity).
    assert (H0 : retry_timeout_ms (s_state cleared) = 0)
      by (unfold cleared; cbn; rewrite Hst; reflexivity).
    destruct (mgos_sntp_retry_steady scfg x cleared He Hs Ht Hx Hr)
      as (d & Htm & Hj & Hrto).
    exists d. split; [exact Htm | split; [exact Hj | congruence]].
Qed.

Lemma steady_state_delay_witness :
  exists d,
    timers (outside (mgos_sntp_retry steady_cfg mid_draw steady_sys)) =
      [(retry_timer_id (s_state (mgos_sntp_retry steady_cfg mid_draw steady_sys)), d)] /\
    within_jitter 7200000 d.
Proof.
  destruct (steady_state_delay steady_cfg mid_draw steady_sys) as [H _].
  - reflexivity.
  - unfold rand_ok, Qle; simpl; lia.
  - vm_compute. split; discriminate.
  - destruct (H eq_refl eq_refl) as (d & Ht & Hj & _).
    exists d. split; [exact Ht | exact Hj].
Defined.

(* ------------------------------------------------------------------ *)
(** ** Session close *)

(** C7. The close event of the tracked session clears the session handle
    and runs [mgos_sntp_retry] once on the result; [mgos_sntp_retry] does
    nothing when a timer is already armed; so the close arms at most one
    new timer, and none when one was armed. *)
Theorem close_schedules_once scfg x c sy :
  nc (s_state sy) = Some c ->
  let cleared := {| s_state := set_nc None (s_state sy); outside := outside sy |} in
  let sy' := mgos_sntp_ev scfg x c MG_EV_CLOSE sy in
  sy' = mgos_sntp_retry scfg x cleared /\
  nc (s_state sy') = None /\
  (forall sy0, retry_timer_id (s_state sy0) <> MGOS_INVALID_TIMER_ID ->
               mgos_sntp_retry scfg x sy0 = sy0) /\
  (retry_timer_id (s_state sy) <> MGOS_INVALID_TIMER_ID -> sy' = cleared) /\
  exists newly,
    timers (outside sy') = timers (outside sy) ++ newly /\ (List.length newly <= 1)%nat.
Proof.
  intros Hnc. cbv zeta.
  rewrite (mgos_sntp_ev_close_tracked scfg x c sy Hnc).
  set (cleared := {| s_state := set_nc None (s_state sy); outside := outside sy |}).
  split; [reflexivity|]. split.
  { destruct (mgos_sntp_retry_frame scfg x cleared) as (H & _). rewrite H. reflexivity. }
  split; [intros sy0; apply mgos_sntp_retry_armed|].
  split; [intros Ht; apply mgos_sntp_retry_armed; exact Ht|].
  destruct (enable scfg) eqn:He.
  - destruct (Z.eq_dec (retry_timer_id (s_state cleared)) MGOS_INVALID_TIMER_ID) as [Ht | Ht].
    + rewrite mgos_sntp_retry_arms by assumption. cbv zeta.
      eexists [_]. cbn. split; [reflexivity | lia].
    + rewrite mgos_sntp_retry_armed by assumption.
      exists []. cbn. rewrite app_nil_r. split; [reflexivity | lia].
  - rewrite mgos_sntp_retry_disabled by assumption.
    exists []. cbn. rewrite app_nil_r. split; [reflexivity | lia].
Qed.

Lemma close_schedules_once_witness :
  nc (s_state (mgos_sntp_ev steady_cfg mid_draw 1%nat MG_EV_CLOSE steady_sys)) = None /\
  exists newly,
    timers (outside (mgos_sntp_ev steady_cfg mid_draw 1%nat MG_EV_CLOSE steady_sys)) =
      timers (outside steady_sys) ++ newly /\ (List.length newly <= 1)%nat.
Proof.
  destruct (close_schedules_once steady_cfg mid_draw 1%nat steady_sys eq_refl)
    as (_ & Hn & _ & _ & Hnew).
  split; [exact Hn | exact Hnew].
Defined.

(* ------------------------------------------------------------------ *)
(** ** The built-in observer *)

(** C10. [mgos_time_change_cb] keeps the connections in place and changes
    nothing but [ev_timer_time]: a strictly positive deadline is moved by
    [delta], and a connection whose deadline is [<= 0] is left as it is. *)
Theorem time_change_cb_frame (delta : Q) (mgr : list mg_connection) (i : nat)
        (c : mg_connection) :
  nth_error mgr i = Some c ->
  List.length (mgos_time_change_cb delta mgr) = List.length mgr /\
  exists c',
    nth_error (mgos_time_change_cb delta mgr) i = Some c' /\
    conn_id c' = conn_id c /\
    flags c' = flags c /\
    handler c' = handler c /\
    ((0 < ev_timer_time c)%Q -> ev_timer_time c' = (ev_timer_time c + delta)%Q) /\
    ((ev_timer_time c <= 0)%Q -> c' = c).
Proof.
  intros Hn. unfold mgos_time_change_cb. split; [apply length_map|].
  rewrite nth_error_map, Hn. cbn [option_map].
  eexists. split; [reflexivity|].
  destruct (Qgtb (ev_timer_time c) 0) eqn:E.
  - apply Qgtb_true in E. cbn. repeat split.
    intros Hle. exfalso. apply (Qlt_not_le _ _ E). exact Hle.
  - apply Qgtb_false in E. repeat split.
    intros Hlt. exfalso. apply (Qlt_not_le _ _ Hlt). exact E.
Qed.

Lemma time_change_cb_frame_witness :
  exists c',
    nth_error (mgos_time_change_cb (5 # 2) sample_mgr) 0 = Some c' /\
    ev_timer_time c' = ((12 # 1) + (5 # 2))%Q /\
    nth_error (mgos_time_change_cb (5 # 2) sample_mgr) 2 = nth_error sample_mgr 2.
Proof.
  destruct (time_change_cb_frame (5 # 2) sample_mgr 0 _ eq_refl)
    as (_ & c0 & H0 & _ & _ & _ & Hpos & _).
  destruct (time_change_cb_frame (5 # 2) sample_mgr 2 _ eq_refl)
    as (_ & c2 & H2 & _ & _ & _ & _ & Hneg).
  exists c0. split; [exact H0|]. split.
  - apply Hpos. reflexivity.
  - rewrite H2, Hneg by discriminate. reflexivity.
Defined.

(* ------------------------------------------------------------------ *)
(** ** Frame lemmas for the external operations *)

Lemma call_cb_frame delta w o :
  calls (call_cb delta w o) = calls w ++ [(o, delta)] /\
  timers (call_cb delta w o) = timers w /\
  next_timer (call_cb delta w o) = next_timer w /\
  sys_time (call_cb delta w o) = sys_time w /\
  connects (call_cb delta w o) = connects w /\
  map conn_id (conns (call_cb delta w o)) = map conn_id (conns w) /\
  map handler (conns (call_cb delta w o)) = map handler (conns w) /\
  map flags (conns (call_cb delta w o)) = map flags (conns w).
Proof.
  unfold call_cb. destruct (cb o); cbn; repeat split;
    unfold mgos_time_change_cb; rewrite map_map; apply map_ext;
    intros k; destruct (Qgtb (ev_timer_time k) 0); reflexivity.
Qed.

Lemma fold_call_cb_frame delta os : forall w,
  let w' := fold_left (call_cb delta) os w in
  calls w' = calls w ++ map (fun o => (o, delta)) os /\
  timers w' = timers w /\
  next_timer w' = next_timer w /\
  connects w' = connects w /\
  map conn_id (conns w') = map conn_id (conns w) /\
  map handler (conns w') = map handler (conns w) /\
  map flags (conns w') = map flags (conns w).
Proof.
  induction os as [| o os IH]; intros w; cbn.
  - rewrite app_nil_r. repeat split.
  - destruct (call_cb_frame delta w o) as (Hc & Ht & Hn & _ & Hk & Hi & Hh & Hf).
    destruct (IH (call_cb delta w o)) as (Hc' & Ht' & Hn' & Hk' & Hi' & Hh' & Hf').
    cbv zeta in *.
    rewrite Hc', Ht', Hn', Hk', Hi', Hh', Hf', Hc, Ht, Hn, Hk, Hi, Hh, Hf.
    rewrite <- app_assoc. repeat split.
Qed.

Lemma or_flags_ids c f w :
  map conn_id (conns (or_flags c f w)) = map conn_id (conns w) /\
  map handler (conns (or_flags c f w)) = map handler (conns w) /\
  map ev_timer_time (conns (or_flags c f w)) = map ev_timer_time (conns w).
Proof.
  unfold or_flags; cbn. rewrite !map_map.
  repeat split; apply map_ext; intros k;
    destruct (Nat.eqb (conn_id k) c); reflexivity.
Qed.

(** After [nc->flags |= MG_F_CLOSE_IMMEDIATELY], the bit is set in [nc]. *)
Lemma or_flags_close_bit c w k :
  In k (conns (or_flags c MG_F_CLOSE_IMMEDIATELY w)) ->
  conn_id k = c -> Z.testbit (flags k) 11 = true.
Proof.
  unfold or_flags; cbn [conns set_conns]. rewrite in_map_iff. intros (k0 & Hk & _) Hid.
  destruct (Nat.eqb (conn_id k0) c) eqn:E.
  - subst k. cbn [flags set_flags]. rewrite Z.lor_spec.
    change (Z.testbit MG_F_CLOSE_IMMEDIATELY 11) with true. apply orb_true_r.
  - subst k. apply Nat.eqb_neq in E. contradiction.
Qed.

Lemma timer_armed_clear id w :
  timer_armed id (mgos_clear_timer id w) = false.
Proof.
  unfold timer_armed, mgos_clear_timer; cbn.
  induction (timers w) as [| t ts IH]; cbn; [reflexivity|].
  destruct (fst t =? id) eqn:E; cbn; [exact IH|].
  rewrite E. exact IH.
Qed.

(* ------------------------------------------------------------------ *)
(** ** The reply handler and the observers *)

Lemma mgos_sntp_ev_reply_outside scfg x c time sy :
  outside (mgos_sntp_ev scfg x c (MG_SNTP_REPLY time) sy) =
  let s := s_state sy in
  let w1 :=
    if settime_ok x
    then fold_left (call_cb (time - now x)%Q) (time_change_cbs s)
           (set_sys_time
              (Some (timeval_of time))
              (outside sy))
    else outside sy in
  let w2 := or_flags c MG_F_CLOSE_IMMEDIATELY w1 in
  if retry_timer_id s =? MGOS_INVALID_TIMER_ID then w2
  else mgos_clear_timer (retry_timer_id s) w2.
Proof.
  unfold mgos_sntp_ev. cbn [set_synced set_retry_timeout_ms retry_timer_id].
  destruct (retry_timer_id (s_state sy) =? MGOS_INVALID_TIMER_ID); reflexivity.
Qed.

Lemma register_all_spec os : forall sy,
  time_change_cbs (s_state (register_all os sy)) = rev os ++ time_change_cbs (s_state sy) /\
  outside (register_all os sy) = outside sy.
Proof.
  induction os as [| o os IH]; intros sy; cbn; [split; reflexivity|].
  destruct (IH (mgos_sntp_add_time_change_cb (cb o) (cb_arg o) sy)) as [Hc Ho].
  unfold register_all in *. rewrite Hc, Ho. cbn.
  destruct o as [f a]; cbn. rewrite <- app_assoc. split; reflexivity.
Qed.

(** C2, as stated, fails: with A registered before B, a reply whose time
    is applied calls B first and A second. *)
Lemma observers_not_in_registration_order :
  let sy1 := register_all [observer_a; observer_b] sys0 in
  let sy2 := mgos_sntp_ev steady_cfg mid_draw 1%nat (MG_SNTP_REPLY 100) sy1 in
  settime_ok mid_draw = true /\
  calls (outside sy2) = [(observer_b, (100 - 5)%Q); (observer_a, (100 - 5)%Q)] /\
  map fst (calls (outside sy2)) <> [observer_a; observer_b].
Proof.
  cbv zeta. split; [reflexivity|]. split; [reflexivity|].
  cbn. discriminate.
Qed.

(** C2, amended. On a reply whose time [settimeofday] accepts, every
    registered observer is called exactly once with
    [delta = time - now], synchronously inside the handler, most recently
    registered first: the calls are those of the registry in reverse
    registration order, whatever number of observers was registered. *)
Theorem observers_notified scfg x c time (os : list time_change_cb) sy :
  settime_ok x = true ->
  let sy1 := register_all os sy in
  let sy2 := mgos_sntp_ev scfg x c (MG_SNTP_REPLY time) sy1 in
  let delta := (time - now x)%Q in
  time_change_cbs (s_state sy1) = rev os ++ time_change_cbs (s_state sy) /\
  calls (outside sy2) =
    calls (outside sy) ++ map (fun o => (o, delta)) (rev os ++ time_change_cbs (s_state sy)) /\
  forall o,
    count_occ time_change_cb_eq_dec
      (map fst (map (fun o => (o, delta)) (rev os ++ time_change_cbs (s_state sy)))) o =
    count_occ time_change_cb_eq_dec (os ++ time_change_cbs (s_state sy)) o.
Proof.
  intros Hok. cbv zeta.
  destruct (register_all_spec os sy) as [Hc Ho].
  split; [exact Hc|]. split.
  - rewrite mgos_sntp_ev_reply_outside. cbv zeta. rewrite Hok, Hc, Ho.
    set (w1 := fold_left _ _ _).
    assert (Hw1 : calls w1 = calls (outside sy) ++
                  map (fun o => (o, (time - now x)%Q)) (rev os ++ time_change_cbs (s_state sy))).
    { unfold w1. destruct (fold_call_cb_frame (time - now x)%Q
                (rev os ++ time_change_cbs (s_state sy))
                (set_sys_time
                   (Some (timeval_of time))
                   (outside sy))) as (H & _). exact H. }
    destruct (retry_timer_id (s_state (register_all os sy)) =? MGOS_INVALID_TIMER_ID);
      cbn; exact Hw1.
  - intros o. rewrite map_map. cbn [fst]. rewrite map_id.
    rewrite !count_occ_app, count_occ_rev. reflexivity.
Qed.

Lemma observers_notified_witness :
  calls (outside (mgos_sntp_ev steady_cfg mid_draw 1%nat (MG_SNTP_REPLY 100)
                    (register_all [observer_a; observer_b] sys0))) =
  [(observer_b, (100 - 5)%Q); (observer_a, (100 - 5)%Q)].
Proof.
  destruct (observers_notified steady_cfg mid_draw 1%nat 100
              [observer_a; observer_b] sys0 eq_refl) as (_ & H & _).
  rewrite H. reflexivity.
Defined.

(* ------------------------------------------------------------------ *)
(** ** A reply whose time cannot be applied *)

(** C1, as stated, fails: in a state reached before any sync, with a
    backoff of 20000 ms and the safety-net timer armed, a reply that
    [settimeofday] rejects still sets [synced], resets the backoff to 0
    and cancels the timer. *)
Lemma clock_failure_still_marks_synced :
  let after := mgos_sntp_ev steady_cfg failing_clock 1%nat (MG_SNTP_REPLY 100) before_reply in
  run steady_cfg first_attempt (boot steady_cfg) = Some before_reply /\
  settime_ok failing_clock = false /\
  synced (s_state before_reply) = false /\
  retry_timeout_ms (s_state before_reply) = 20000 /\
  timer_armed 2 (outside before_reply) = true /\
  synced (s_state after) = true /\
  retry_timeout_ms (s_state after) = 0 /\
  timer_armed 2 (outside after) = false /\
  ~ (synced (s_state after) = synced (s_state before_reply) /\
     retry_timeout_ms (s_state after) = retry_timeout_ms (s_state before_reply)).
Proof.
  cbv zeta. repeat split; try reflexivity.
  intros [H _]. vm_compute in H. discriminate.
Qed.

(** C1, amended. When [settimeofday] fails on a reply, no observer is
    called and the clock and the deadlines of the connections are left
    alone; the module state is updated as on success: [synced] becomes
    true, [retry_timeout_ms] becomes 0, the pending retry timer is
    cancelled and its identifier forgotten, and the session is flagged to
    close at once.  The close of that session then arms the next attempt
    from the update interval, not from the backoff. *)
Theorem reply_with_clock_failure scfg x c time sy :
  settime_ok x = false ->
  let sy' := mgos_sntp_ev scfg x c (MG_SNTP_REPLY time) sy in
  calls (outside sy') = calls (outside sy) /\
  sys_time (outside sy') = sys_time (outside sy) /\
  map ev_timer_time (conns (outside sy')) = map ev_timer_time (conns (outside sy)) /\
  synced (s_state sy') = true /\
  retry_timeout_ms (s_state sy') = 0 /\
  retry_timer_id (s_state sy') = MGOS_INVALID_TIMER_ID /\
  nc (s_state sy') = nc (s_state sy) /\
  time_change_cbs (s_state sy') = time_change_cbs (s_state sy) /\
  (retry_timer_id (s_state sy) <> MGOS_INVALID_TIMER_ID ->
   timer_armed (retry_timer_id (s_state sy)) (outside sy') = false) /\
  (forall k, In k (conns (outside sy')) -> conn_id k = c ->
             Z.testbit (flags k) 11 = true) /\
  (forall x2, enable scfg = true -> nc (s_state sy) = Some c ->
     let sy2 := mgos_sntp_ev scfg x2 c MG_EV_CLOSE sy' in
     timers (outside sy2) =
       timers (outside sy') ++
       [(retry_timer_id (s_state sy2),
         jittered (Int.mul (update_interval scfg) 1000) (rand_frac x2))] /\
     retry_timeout_ms (s_state sy2) = 0).
Proof.
  intros Hfail. cbv zeta.
  assert (Hnext : forall x2, enable scfg = true -> nc (s_state sy) = Some c ->
     let sy' := mgos_sntp_ev scfg x c (MG_SNTP_REPLY time) sy in
     let sy2 := mgos_sntp_ev scfg x2 c MG_EV_CLOSE sy' in
     timers (outside sy2) =
       timers (outside sy') ++
       [(retry_timer_id (s_state sy2),
         jittered (Int.mul (update_interval scfg) 1000) (rand_frac x2))] /\
     retry_timeout_ms (s_state sy2) = 0).
  { intros x2 He Hnc. cbv zeta.
    pose proof (mgos_sntp_ev_reply_s_state scfg x c time sy) as Hst.
    remember (mgos_sntp_ev scfg x c (MG_SNTP_REPLY time) sy) as sy1 eqn:Esy1.
    clear Esy1.
    rewrite (mgos_sntp_ev_close_tracked scfg x2 c sy1) by (rewrite Hst; exact Hnc).
    set (cleared := {| s_state := _; outside := outside sy1 |}).
    assert (Hs : synced (s_state cleared) = true)
      by (unfold cleared; cbn; rewrite Hst; reflexivity).
    assert (Ht : retry_timer_id (s_state cleared) = MGOS_INVALID_TIMER_ID)
      by (unfold cleared; cbn; rewrite Hst; reflexivity).
    assert (H0 : retry_timeout_ms (s_state cleared) = 0)
      by (unfold cleared; cbn; rewrite Hst; reflexivity).
    destruct (mgos_sntp_retry_steady_arms scfg x2 cleared He Hs Ht) as (Htm & Hrto & _).
    split; [exact Htm | congruence]. }
  cbv zeta in Hnext. revert Hnext.
  rewrite mgos_sntp_ev_reply_s_state, mgos_sntp_ev_reply_outside. cbv zeta.
  rewrite Hfail. cbn [synced retry_timeout_ms retry_timer_id nc time_change_cbs].
  destruct (or_flags_ids c MG_F_CLOSE_IMMEDIATELY (outside sy)) as (_ & _ & Het).
  destruct (retry_timer_id (s_state sy) =? MGOS_INVALID_TIMER_ID) eqn:E.
  - apply Z.eqb_eq in E. intros Hnext. repeat split; try exact Het.
    + intros Hne. contradiction.
    + apply or_flags_close_bit.
    + apply Hnext; assumption.
    + apply Hnext; assumption.
  - intros Hnext. repeat split; try exact Het.
    + intros _. apply timer_armed_clear.
    + apply or_flags_close_bit.
    + apply Hnext; assumption.
    + apply Hnext; assumption.
Qed.

Lemma reply_with_clock_failure_witness :
  let after := mgos_sntp_ev steady_cfg failing_clock 1%nat (MG_SNTP_REPLY 100) before_reply in
  calls (outside after) = [] /\
  synced (s_state after) = true /\
  retry_timeout_ms (s_state after) = 0 /\
  retry_timer_id (s_state after) = MGOS_INVALID_TIMER_ID.
Proof.
  destruct (reply_with_clock_failure steady_cfg failing_clock 1%nat 100 before_reply eq_refl)
    as (Hc & _ & _ & Hs & Hr & Ht & _).
  cbv zeta. split; [exact Hc|]. split; [exact Hs|]. split; [exact Hr | exact Ht].
Defined.

(* ------------------------------------------------------------------ *)
(** ** At most one session *)

Lemma sessions_ext_list (l : list mg_connection) : forall l',
  map conn_id l = map conn_id l' ->
  map handler l = map handler l' ->
  map conn_id (filter is_sntp l) = map conn_id (filter is_sntp l').
Proof.
  induction l as [| k l IH]; intros [| k' l'] Hi Hh; cbn in *; try discriminate.
  - reflexivity.
  - injection Hi as Hi1 Hi2. injection Hh as Hh1 Hh2.
    assert (Hs : is_sntp k = is_sntp k') by (unfold is_sntp; rewrite Hh1; reflexivity).
    rewrite Hs. destruct (is_sntp k'); cbn [map]; rewrite ?Hi1, (IH l' Hi2 Hh2);
      reflexivity.
Qed.

Lemma sessions_ext w w' :
  map conn_id (conns w) = map conn_id (conns w') ->
  map handler (conns w) = map handler (conns w') ->
  sessions w = sessions w'.
Proof. apply sessions_ext_list. Qed.

Lemma sessions_or_flags c f w : sessions (or_flags c f w) = sessions w.
Proof.
  destruct (or_flags_ids c f w) as (Hi & Hh & _). apply sessions_ext; assumption.
Qed.

Lemma sessions_destroy c w :
  sessions (mg_destroy_conn c w) = filter (fun i => negb (Nat.eqb i c)) (sessions w).
Proof.
  unfold sessions, mg_destroy_conn; cbn.
  induction (conns w) as [| k l IH]; cbn; [reflexivity|].
  destruct (Nat.eqb (conn_id k) c) eqn:E; cbn;
    destruct (is_sntp k); cbn; rewrite ?E; cbn; rewrite IH; reflexivity.
Qed.

Lemma live_in_sessions c w : sntp_conn_live c w = true -> In c (sessions w).
Proof.
  unfold sntp_conn_live, sessions. rewrite existsb_exists.
  intros (k & Hin & Hk). apply andb_prop in Hk as [Hid Hs].
  apply Nat.eqb_eq in Hid. subst c.
  apply in_map. apply filter_In. split; assumption.
Qed.

Lemma mgos_sntp_retry_one_session scfg x sy :
  one_session sy -> one_session (mgos_sntp_retry scfg x sy).
Proof.
  unfold one_session, tracked.
  destruct (mgos_sntp_retry_frame scfg x sy) as (Hn & _ & _ & Hc & _).
  cbv zeta in *. unfold sessions. rewrite Hn, Hc. trivial.
Qed.

(** What [mgos_sntp_query] does in each of its two cases. *)
Lemma mgos_sntp_query_active x srv sy c :
  nc (s_state sy) = Some c ->
  mgos_sntp_query x srv sy =
  (false, {| s_state := s_state sy;
             outside := or_flags c MG_F_CLOSE_IMMEDIATELY (outside sy) |}).
Proof. intros H. unfold mgos_sntp_query. rewrite H. reflexivity. Qed.

Lemma mgos_sntp_query_idle x srv sy :
  nc (s_state sy) = None ->
  mgos_sntp_query x srv sy =
  (match fst (mg_sntp_connect srv (connect_ok x) (outside sy)) with
   | Some _ => true | None => false end,
   {| s_state := set_nc (fst (mg_sntp_connect srv (connect_ok x) (outside sy))) (s_state sy);
      outside := snd (mg_sntp_connect srv (connect_ok x) (outside sy)) |}).
Proof.
  intros H. unfold mgos_sntp_query. rewrite H.
  destruct (mg_sntp_connect srv (connect_ok x) (outside sy)). reflexivity.
Qed.

Lemma mgos_sntp_query_one_session x srv sy :
  one_session sy -> one_session (snd (mgos_sntp_query x srv sy)).
Proof.
  unfold one_session. intros H.
  destruct (nc (s_state sy)) as [c|] eqn:Hnc.
  - rewrite (mgos_sntp_query_active x srv sy c Hnc). cbn [snd s_state outside].
    rewrite sessions_or_flags. exact H.
  - rewrite (mgos_sntp_query_idle x srv sy Hnc). cbn [snd s_state outside].
    unfold tracked in *. rewrite Hnc in H.
    unfold mg_sntp_connect. destruct (connect_ok x); cbn.
    + unfold sessions in *. cbn. rewrite H. reflexivity.
    + exact H.
Qed.

Lemma mgos_sntp_ev_reply_one_session scfg x c time sy :
  one_session sy -> one_session (mgos_sntp_ev scfg x c (MG_SNTP_REPLY time) sy).
Proof.
  unfold one_session, tracked. intros H.
  rewrite mgos_sntp_ev_reply_s_state, mgos_sntp_ev_reply_outside. cbv zeta.
  cbn [nc]. rewrite <- H.
  set (w1 := if settime_ok x then _ else _).
  assert (Hw1 : sessions w1 = sessions (outside sy)).
  { unfold w1. destruct (settime_ok x); [|reflexivity].
    destruct (fold_call_cb_frame (time - now x)%Q (time_change_cbs (s_state sy))
                (set_sys_time
                   (Some (timeval_of time))
                   (outside sy))) as (_ & _ & _ & _ & Hi & Hh & _).
    apply sessions_ext; assumption. }
  destruct (retry_timer_id (s_state sy) =? MGOS_INVALID_TIMER_ID).
  - rewrite sessions_or_flags. exact Hw1.
  - unfold mgos_clear_timer, sessions. cbn [conns set_timers].
    fold (sessions (or_flags c MG_F_CLOSE_IMMEDIATELY w1)).
    rewrite sessions_or_flags. exact Hw1.
Qed.

Lemma mgos_sntp_retry_timer_cb_one_session scfg x sy :
  one_session sy -> one_session (mgos_sntp_retry_timer_cb scfg x sy).
Proof.
  intros H. unfold mgos_sntp_retry_timer_cb.
  set (sy1 := {| s_state := _; outside := outside sy |}).
  assert (H1 : one_session sy1) by exact H.
  pose proof (mgos_sntp_query_one_session x (server scfg) sy1 H1) as H2.
  destruct (mgos_sntp_query x (server scfg) sy1) as [r sy2]. cbn [snd] in H2.
  apply mgos_sntp_retry_one_session. exact H2.
Qed.

Lemma dispatch_one_session scfg e x sy sy' :
  one_session sy -> dispatch scfg e x sy = Some sy' -> one_session sy'.
Proof.
  intros H Hd. destruct e as [f arg | ev | id | c ev]; cbn [dispatch] in Hd.
  - injection Hd as <-. exact H.
  - destruct (net_handler (outside sy)); [|discriminate]. injection Hd as <-.
    destruct ev; cbn; try exact H. apply mgos_sntp_retry_one_session. exact H.
  - destruct (timer_armed id (outside sy)); [|discriminate]. injection Hd as <-.
    apply mgos_sntp_retry_timer_cb_one_session. exact H.
  - destruct (sntp_conn_live c (outside sy)) eqn:Hlive; [|discriminate].
    apply live_in_sessions in Hlive.
    destruct ev as [| time | | | | n]; injection Hd as <-.
    + exact H.
    + apply (mgos_sntp_ev_reply_one_session scfg x c time sy H).
    + unfold one_session; cbn [mgos_sntp_ev s_state outside].
      rewrite sessions_or_flags. exact H.
    + unfold one_session; cbn [mgos_sntp_ev s_state outside].
      rewrite sessions_or_flags. exact H.
    + unfold one_session in *. rewrite H in Hlive. unfold tracked in Hlive.
      destruct (nc (s_state sy)) as [c'|] eqn:Hnc; [|contradiction].
      destruct Hlive as [-> | []].
      rewrite Nat.eqb_refl.
      set (cleared := {| s_state := set_nc None (s_state sy); outside := outside sy |}).
      destruct (mgos_sntp_retry_frame scfg x cleared) as (Hn & _ & _ & Hc & _).
      cbv zeta in Hn, Hc. cbn [s_state outside].
      rewrite sessions_destroy.
      replace (sessions (outside (mgos_sntp_retry scfg x cleared)))
        with (sessions (outside sy)) by (unfold sessions; rewrite Hc; reflexivity).
      rewrite H. unfold tracked. rewrite Hn, Hnc.
      cbn. rewrite Nat.eqb_refl. reflexivity.
    + exact H.
Qed.

Lemma run_one_session scfg es : forall sy sy',
  one_session sy -> run scfg es sy = Some sy' -> one_session sy'.
Proof.
  induction es as [| [e x] es IH]; intros sy sy' H Hr; cbn in Hr.
  - injection Hr as <-. exact H.
  - destruct (dispatch scfg e x sy) as [sy1|] eqn:Hd; [|discriminate].
    apply (IH sy1); [|exact Hr].
    apply (dispatch_one_session scfg e x sy); assumption.
Qed.

Lemma boot_one_session scfg : one_session (boot scfg).
Proof.
  unfold boot, mgos_sntp_init.
  destruct (enable scfg); [destruct (server scfg)|]; reflexivity.
Qed.

(** C6. [mgos_sntp_query] calls [mg_sntp_connect] exactly when no session
    is tracked.  With a session tracked it returns false, leaves the handle
    and the set of connections as they are and sets the close flag of the
    tracked session.  In every state reached from boot, by any sequence of
    link-up events, timer expiries and connection events, the live
    sessions are the tracked one, so there is at most one. *)
Theorem single_session scfg x srv sy :
  (forall c, nc (s_state sy) = Some c ->
     let r := mgos_sntp_query x srv sy in
     fst r = false /\
     s_state (snd r) = s_state sy /\
     connects (outside (snd r)) = connects (outside sy) /\
     map conn_id (conns (outside (snd r))) = map conn_id (conns (outside sy)) /\
     forall k, In k (conns (outside (snd r))) -> conn_id k = c ->
               Z.testbit (flags k) 11 = true) /\
  (nc (s_state sy) = None ->
     let r := mgos_sntp_query x srv sy in
     connects (outside (snd r)) = connects (outside sy) ++ [srv] /\
     fst r = connect_ok x /\
     nc (s_state (snd r)) =
       (if connect_ok x then Some (next_conn (outside sy)) else None) /\
     sessions (outside (snd r)) =
       (if connect_ok x then [next_conn (outside sy)] else []) ++ sessions (outside sy)) /\
  (forall es sy', run scfg es (boot scfg) = Some sy' ->
     sessions (outside sy') = tracked (s_state sy') /\
     (List.length (sessions (outside sy')) <= 1)%nat).
Proof.
  split; [|split].
  - intros c Hnc. cbv zeta. rewrite (mgos_sntp_query_active x srv sy c Hnc).
    cbn [fst snd s_state outside].
    destruct (or_flags_ids c MG_F_CLOSE_IMMEDIATELY (outside sy)) as (Hi & _).
    repeat split; try assumption. apply or_flags_close_bit.
  - intros Hnc. cbv zeta. rewrite (mgos_sntp_query_idle x srv sy Hnc).
    cbn [fst snd s_state outside]. unfold mg_sntp_connect.
    destruct (connect_ok x); cbn; repeat split.
  - intros es sy' Hr.
    pose proof (run_one_session scfg es _ _ (boot_one_session scfg) Hr) as H.
    split; [exact H|]. rewrite H. unfold tracked.
    destruct (nc (s_state sy')); cbn; lia.
Qed.

Lemma single_session_witness :
  fst (mgos_sntp_query mid_draw (Some "pool.ntp.org"%string) before_reply) = false /\
  fst (mgos_sntp_query mid_draw (Some "pool.ntp.org"%string) sys0) = true /\
  sessions (outside before_reply) = [1%nat].
Proof.
  destruct (single_session steady_cfg mid_draw (Some "pool.ntp.org"%string) before_reply)
    as (Hact & _ & Hinv).
  destruct (single_session steady_cfg mid_draw (Some "pool.ntp.org"%string) sys0)
    as (_ & Hidle & _).
  split; [apply (Hact 1%nat eq_refl)|].
  split; [apply (Hidle eq_refl)|].
  destruct (Hinv first_attempt before_reply eq_refl) as [H _].
  rewrite H. reflexivity.
Defined.

(* ------------------------------------------------------------------ *)
(** ** The backoff across failed attempts *)

Lemma mgos_sntp_query_same_backoff x srv sy :
  same_backoff sy (snd (mgos_sntp_query x srv sy)).
Proof.
  unfold same_backoff. destruct (nc (s_state sy)) as [c|] eqn:Hnc.
  - rewrite (mgos_sntp_query_active x srv sy c Hnc). cbn. repeat split.
  - rewrite (mgos_sntp_query_idle x srv sy Hnc). unfold mg_sntp_connect.
    destruct (connect_ok x); cbn; repeat split.
Qed.












(* ------------------------------------------------------------------ *)
(** ** The value of the backoff *)

(** The state after a run of the backoff branch. *)
Lemma mgos_sntp_retry_backoff scfg x sy :
  enable scfg = true ->
  retry_timer_id (s_state sy) = MGOS_INVALID_TIMER_ID ->
  synced (s_state sy) = false ->
  let v := backoff_ms scfg (retry_timeout_ms (s_state sy)) in
  let sy' := mgos_sntp_retry scfg x sy in
  synced (s_state sy') = false /\
  retry_timeout_ms (s_state sy') = v /\
  retry_timer_id (s_state sy') = next_timer (outside sy) /\
  next_timer (outside sy') = next_timer (outside sy) + 1 /\
  timers (outside sy') = timers (outside sy) ++ [(next_timer (outside sy), jittered v (rand_frac x))].
Proof.
  intros He Ht Hs. cbv zeta. rewrite mgos_sntp_retry_arms by assumption.
  cbv zeta. rewrite Hs. cbn. rewrite Hs. repeat split.
Qed.


Lemma timer_fires_failures k xs : failures (timer_fires k xs) = true.
Proof.
  revert k. induction xs as [| x xs IH]; intros k; cbn; [reflexivity | apply IH].
Qed.







(* ------------------------------------------------------------------ *)
(** ** Disabled configuration *)

Lemma mgos_sntp_net_ev_disabled scfg x ev sy :
  enable scfg = false -> mgos_sntp_net_ev scfg x ev sy = sy.
Proof.
  intros H. destruct ev; cbn; try reflexivity.
  apply mgos_sntp_retry_disabled; exact H.
Qed.

Lemma boot_quiet scfg : quiet (boot scfg).
Proof.
  unfold boot, mgos_sntp_init.
  destruct (enable scfg); [destruct (server scfg)|]; cbn; repeat split.
Qed.

Lemma dispatch_quiet_disabled scfg e x sy sy' :
  enable scfg = false -> quiet sy -> dispatch scfg e x sy = Some sy' -> quiet sy'.
Proof.
  intros He (Ht & Hid & Hnc & Hc & Hk) Hd.
  destruct e as [f arg | ev | id | c ev]; cbn in Hd.
  - injection Hd as <-. repeat split; assumption.
  - destruct (net_handler (outside sy)); [|discriminate].
    rewrite mgos_sntp_net_ev_disabled in Hd by exact He.
    injection Hd as <-. repeat split; assumption.
  - unfold timer_armed in Hd. rewrite Ht in Hd. discriminate.
  - unfold sntp_conn_live in Hd. rewrite Hc in Hd. discriminate.
Qed.

Lemma run_quiet_disabled scfg es :
  enable scfg = false ->
  forall sy sy', quiet sy -> run scfg es sy = Some sy' -> quiet sy'.
Proof.
  intros He. induction es as [| [e x] es IH]; intros sy sy' Hq Hr; cbn in Hr.
  - injection Hr as <-. exact Hq.
  - destruct (dispatch scfg e x sy) as [sy1|] eqn:Hd; [|discriminate].
    apply (IH sy1); [|exact Hr].
    apply (dispatch_quiet_disabled scfg e x sy); assumption.
Qed.

Lemma mgos_sntp_retry_timer_cb_disabled scfg x sy :
  enable scfg = false ->
  next_timer (outside (mgos_sntp_retry_timer_cb scfg x sy)) = next_timer (outside sy).
Proof.
  intros He. unfold mgos_sntp_retry_timer_cb.
  set (sy1 := {| s_state := _; outside := outside sy |}).
  pose proof (mgos_sntp_query_same_backoff x (server scfg) sy1) as Hq.
  destruct (mgos_sntp_query x (server scfg) sy1) as [r sy2]. cbn [snd] in Hq.
  rewrite mgos_sntp_retry_disabled by exact He.
  destruct Hq as (_ & _ & _ & _ & Hn). rewrite Hn. reflexivity.
Qed.

Lemma mgos_sntp_ev_reply_next_timer scfg x c time sy :
  next_timer (outside (mgos_sntp_ev scfg x c (MG_SNTP_REPLY time) sy))
  = next_timer (outside sy).
Proof.
  rewrite mgos_sntp_ev_reply_outside. cbv zeta.
  set (w1 := if settime_ok x then _ else _).
  assert (Hw1 : next_timer w1 = next_timer (outside sy)).
  { unfold w1. destruct (settime_ok x); [|reflexivity].
    destruct (fold_call_cb_frame (time - now x)%Q (time_change_cbs (s_state sy))
                (set_sys_time
                   (Some (timeval_of time))
                   (outside sy))) as (_ & _ & Hn & _).
    exact Hn. }
  destruct (retry_timer_id (s_state sy) =? MGOS_INVALID_TIMER_ID); exact Hw1.
Qed.

(** With the feature disabled no event arms a timer, whatever the state:
    the counter of timer identifiers stays where it is. *)
Lemma dispatch_disabled_no_timer scfg e x sy sy' :
  enable scfg = false -> dispatch scfg e x sy = Some sy' ->
  next_timer (outside sy') = next_timer (outside sy).
Proof.
  intros He Hd. destruct e as [f arg | ev | id | c ev]; cbn [dispatch] in Hd.
  - injection Hd as <-. reflexivity.
  - destruct (net_handler (outside sy)); [|discriminate].
    rewrite mgos_sntp_net_ev_disabled in Hd by exact He.
    injection Hd as <-. reflexivity.
  - destruct (timer_armed id (outside sy)); [|discriminate]. injection Hd as <-.
    exact (mgos_sntp_retry_timer_cb_disabled scfg x
             {| s_state := s_state sy; outside := mgos_clear_timer id (outside sy) |} He).
  - destruct (sntp_conn_live c (outside sy)); [|discriminate].
    destruct ev as [| time | | | | n]; injection Hd as <-; try reflexivity.
    + exact (mgos_sntp_ev_reply_next_timer scfg x c time sy).
    + cbn [mgos_sntp_ev outside].
      destruct (nc (s_state sy)) as [c'|]; [|reflexivity].
      destruct (Nat.eqb c' c); [|reflexivity].
      rewrite mgos_sntp_retry_disabled by exact He. reflexivity.
Qed.

(** C9. With the feature disabled, [mgos_sntp_retry] returns its state
    unchanged, and so does the network event handler; in every state
    reached from boot no timer is armed and no session was ever started;
    and from no state at all does an event arm a timer. *)
Theorem disabled_is_inert scfg :
  enable scfg = false ->
  (forall x sy, mgos_sntp_retry scfg x sy = sy) /\
  (forall x ev sy, mgos_sntp_net_ev scfg x ev sy = sy) /\
  (forall e x sy sy', dispatch scfg e x sy = Some sy' ->
     next_timer (outside sy') = next_timer (outside sy)) /\
  (forall es sy, run scfg es (boot scfg) = Some sy ->
     timers (outside sy) = [] /\
     retry_timer_id (s_state sy) = MGOS_INVALID_TIMER_ID /\
     nc (s_state sy) = None /\
     conns (outside sy) = [] /\
     connects (outside sy) = []).
Proof.
  intros He. split; [|split; [|split]].
  - intros x sy. apply mgos_sntp_retry_disabled; exact He.
  - intros x ev sy. apply mgos_sntp_net_ev_disabled; exact He.
  - intros e x sy sy'. apply dispatch_disabled_no_timer; exact He.
  - intros es sy Hr.
    apply (run_quiet_disabled scfg es He (boot scfg) sy (boot_quiet scfg) Hr).
Qed.

Lemma disabled_is_inert_witness :
  mgos_sntp_net_ev disabled_cfg mid_draw MGOS_NET_EV_IP_ACQUIRED sys0 = sys0 /\
  timers (outside (boot disabled_cfg)) = [].
Proof.
  destruct (disabled_is_inert disabled_cfg eq_refl) as (_ & Hnet & _ & Hrun).
  split; [apply Hnet|].
  apply (Hrun [(Ev_add_cb (Cb_extern 1) 0%nat, mid_draw)]
              (mgos_sntp_add_time_change_cb (Cb_extern 1) 0%nat (boot disabled_cfg))
              eq_refl).
Defined.

(* ------------------------------------------------------------------ *)
(** * Further properties of the module *)

(** ** The armed timer *)

Lemma mgos_sntp_ev_reply_timers scfg x c time sy :
  timers (outside (mgos_sntp_ev scfg x c (MG_SNTP_REPLY time) sy)) =
  if retry_timer_id (s_state sy) =? MGOS_INVALID_TIMER_ID
  then timers (outside sy)
  else filter (fun t => negb (fst t =? retry_timer_id (s_state sy))) (timers (outside sy)).
Proof.
  rewrite mgos_sntp_ev_reply_outside. cbv zeta.
  set (w1 := if settime_ok x then _ else _).
  assert (Hw1 : timers w1 = timers (outside sy)).
  { unfold w1. destruct (settime_ok x); [|reflexivity].
    destruct (fold_call_cb_frame (time - now x)%Q (time_change_cbs (s_state sy))
                (set_sys_time (Some (timeval_of time)) (outside sy))) as (_ & Ht & _).
    exact Ht. }
  destruct (retry_timer_id (s_state sy) =? MGOS_INVALID_TIMER_ID); cbn; rewrite Hw1;
    reflexivity.
Qed.

Lemma same_backoff_timer_inv sy sy' :
  same_backoff sy sy' -> timer_inv sy -> timer_inv sy'.
Proof.
  unfold same_backoff, timer_inv. intros (_ & _ & Hid & Ht & Hn) H.
  rewrite Hid, Ht, Hn. exact H.
Qed.

Lemma mgos_sntp_retry_timer_inv scfg x sy :
  timer_inv sy -> timer_inv (mgos_sntp_retry scfg x sy).
Proof.
  intros Hinv.
  destruct (enable scfg) eqn:He;
    [|rewrite mgos_sntp_retry_disabled by assumption; exact Hinv].
  destruct (Z.eq_dec (retry_timer_id (s_state sy)) MGOS_INVALID_TIMER_ID) as [Ht | Ht];
    [|rewrite mgos_sntp_retry_armed by assumption; exact Hinv].
  rewrite mgos_sntp_retry_arms by assumption. cbv zeta.
  destruct Hinv as (Hn & [[_ Hnil] | (d & _ & Hid)]);
    [|unfold MGOS_INVALID_TIMER_ID in Ht; lia].
  unfold timer_inv. destruct (synced (s_state sy)); cbn; rewrite Hnil; cbn.
  - split; [lia|]. right. eexists. split; [reflexivity | lia].
  - split; [lia|]. right. eexists. split; [reflexivity | lia].
Qed.

Lemma mgos_sntp_retry_timer_cb_timer_inv scfg x sy :
  timers (outside sy) = [] -> 1 <= next_timer (outside sy) ->
  timer_inv (mgos_sntp_retry_timer_cb scfg x sy).
Proof.
  intros Hnil Hn. unfold mgos_sntp_retry_timer_cb.
  set (sy1 := {| s_state := _; outside := outside sy |}).
  assert (H1 : timer_inv sy1).
  { split; [exact Hn|]. left. split; [reflexivity | exact Hnil]. }
  pose proof (mgos_sntp_query_same_backoff x (server scfg) sy1) as Hq.
  destruct (mgos_sntp_query x (server scfg) sy1) as [r sy2]. cbn [snd] in Hq.
  apply mgos_sntp_retry_timer_inv. apply (same_backoff_timer_inv sy1 sy2 Hq H1).
Qed.

Lemma mgos_sntp_ev_reply_timer_inv scfg x c time sy :
  timer_inv sy ->
  timer_inv (mgos_sntp_ev scfg x c (MG_SNTP_REPLY time) sy) /\
  timers (outside (mgos_sntp_ev scfg x c (MG_SNTP_REPLY time) sy)) = [].
Proof.
  intros (Hn & Hcases).
  assert (Hnil : timers (outside (mgos_sntp_ev scfg x c (MG_SNTP_REPLY time) sy)) = []).
  { rewrite mgos_sntp_ev_reply_timers.
    destruct Hcases as [[Hid Hnil] | (d & Ht & Hid)].
    - rewrite Hid. cbn. exact Hnil.
    - destruct (Z.eqb_spec (retry_timer_id (s_state sy)) MGOS_INVALID_TIMER_ID) as [E | E];
        [unfold MGOS_INVALID_TIMER_ID in E; lia|].
      rewrite Ht. cbn. rewrite Z.eqb_refl. reflexivity. }
  split; [|exact Hnil].
  split.
  - rewrite mgos_sntp_ev_reply_next_timer. exact Hn.
  - left. rewrite mgos_sntp_ev_reply_s_state. split; [reflexivity | exact Hnil].
Qed.

Lemma dispatch_timer_inv scfg e x sy sy' :
  timer_inv sy -> dispatch scfg e x sy = Some sy' -> timer_inv sy'.
Proof.
  intros Hinv Hd. destruct e as [f arg | ev | id | c ev]; cbn [dispatch] in Hd.
  - injection Hd as <-. exact Hinv.
  - destruct (net_handler (outside sy)); [|discriminate]. injection Hd as <-.
    destruct ev; cbn [mgos_sntp_net_ev]; try exact Hinv.
    apply mgos_sntp_retry_timer_inv. exact Hinv.
  - destruct (timer_armed id (outside sy)) eqn:Harmed; [|discriminate].
    injection Hd as <-.
    apply (mgos_sntp_retry_timer_cb_timer_inv scfg x
             {| s_state := s_state sy; outside := mgos_clear_timer id (outside sy) |}).
    + destruct Hinv as (_ & [[_ Hnil] | (d & Ht & _)]).
      * unfold timer_armed in Harmed. rewrite Hnil in Harmed. discriminate.
      * unfold timer_armed in Harmed. rewrite Ht in Harmed. cbn in Harmed.
        rewrite orb_false_r in Harmed.
        unfold mgos_clear_timer. cbn. rewrite Ht. cbn. rewrite Harmed. reflexivity.
    + destruct Hinv as (Hn & _). exact Hn.
  - destruct (sntp_conn_live c (outside sy)); [|discriminate].
    destruct ev as [| time | | | | n]; injection Hd as <-; try exact Hinv.
    + apply (mgos_sntp_ev_reply_timer_inv scfg x c time sy Hinv).
    + cbn [mgos_sntp_ev].
      destruct (nc (s_state sy)) as [c'|]; [|exact Hinv].
      destruct (Nat.eqb c' c); [|exact Hinv].
      apply (mgos_sntp_retry_timer_inv scfg x
               {| s_state := set_nc None (s_state sy); outside := outside sy |} Hinv).
Qed.

Lemma run_timer_inv scfg es : forall sy sy',
  timer_inv sy -> run scfg es sy = Some sy' -> timer_inv sy'.
Proof.
  induction es as [| [e x] es IH]; intros sy sy' H Hr; cbn in Hr.
  - injection Hr as <-. exact H.
  - destruct (dispatch scfg e x sy) as [sy1|] eqn:Hd; [|discriminate].
    apply (IH sy1); [|exact Hr].
    apply (dispatch_timer_inv scfg e x sy); assumption.
Qed.

Lemma boot_timer_inv scfg : timer_inv (boot scfg).
Proof.
  unfold boot, mgos_sntp_init, timer_inv.
  destruct (enable scfg); [destruct (server scfg)|]; cbn;
    (split; [lia | left; split; reflexivity]).
Qed.

(** X1. In every state reached from boot at most one timer is armed, the
    armed timer is the one [retry_timer_id] names, a valid
    [retry_timer_id] always names an armed timer, and a reply leaves no
    timer armed at all. *)
Theorem one_timer_armed scfg es sy :
  run scfg es (boot scfg) = Some sy ->
  (List.length (timers (outside sy)) <= 1)%nat /\
  (forall id, timer_armed id (outside sy) = true ->
     id = retry_timer_id (s_state sy) /\ id <> MGOS_INVALID_TIMER_ID) /\
  (retry_timer_id (s_state sy) <> MGOS_INVALID_TIMER_ID ->
   timer_armed (retry_timer_id (s_state sy)) (outside sy) = true) /\
  (forall x c time,
     timers (outside (mgos_sntp_ev scfg x c (MG_SNTP_REPLY time) sy)) = []).
Proof.
  intros Hr.
  pose proof (run_timer_inv scfg es _ _ (boot_timer_inv scfg) Hr) as Hinv.
  pose proof Hinv as (Hn & [[Hid Hnil] | (d & Ht & Hid)]).
  - split; [rewrite Hnil; cbn; lia|]. split; [|split].
    + intros id Ha. unfold timer_armed in Ha. rewrite Hnil in Ha. discriminate.
    + intros Hne. contradiction.
    + intros x c time. apply (mgos_sntp_ev_reply_timer_inv scfg x c time sy Hinv).
  - split; [rewrite Ht; cbn; lia|]. split; [|split].
    + intros id Ha. unfold timer_armed in Ha. rewrite Ht in Ha. cbn in Ha.
      rewrite orb_false_r in Ha. apply Z.eqb_eq in Ha.
      unfold MGOS_INVALID_TIMER_ID. lia.
    + intros _. unfold timer_armed. rewrite Ht. cbn. rewrite Z.eqb_refl. reflexivity.
    + intros x c time. apply (mgos_sntp_ev_reply_timer_inv scfg x c time sy Hinv).
Qed.

Lemma one_timer_armed_witness :
  timer_armed 4 (outside after_three_failures) = true /\
  retry_timer_id (s_state after_three_failures) = 4 /\
  (List.length (timers (outside after_three_failures)) <= 1)%nat.
Proof.
  destruct (one_timer_armed steady_cfg three_failures after_three_failures eq_refl)
    as (Hlen & Hid & _).
  split; [reflexivity|]. split; [|exact Hlen].
  symmetry. apply (Hid 4). reflexivity.
Defined.

(** ** The safety net *)

(** X2. With the feature enabled, the timer callback always leaves a new
    timer armed and tracked, whether it opened a session, failed to
    connect or found a session still open; it calls [mg_sntp_connect], with
    the configured server, exactly when no session is tracked. *)
Theorem timer_cb_rearms scfg x sy :
  enable scfg = true ->
  let sy' := mgos_sntp_retry_timer_cb scfg x sy in
  retry_timer_id (s_state sy') = next_timer (outside sy) /\
  next_timer (outside sy') = next_timer (outside sy) + 1 /\
  (exists d, timers (outside sy') = timers (outside sy) ++ [(next_timer (outside sy), d)]) /\
  (nc (s_state sy) = None ->
   connects (outside sy') = connects (outside sy) ++ [server scfg]) /\
  (nc (s_state sy) <> None ->
   connects (outside sy') = connects (outside sy) /\
   nc (s_state sy') = nc (s_state sy)).
Proof.
  intros He. cbv zeta. unfold mgos_sntp_retry_timer_cb.
  set (sy1 := {| s_state := set_retry_timer_id MGOS_INVALID_TIMER_ID (s_state sy);
                 outside := outside sy |}).
  pose proof (mgos_sntp_query_same_backoff x (server scfg) sy1) as Hq.
  assert (Hc : (nc (s_state sy) = None ->
                connects (outside (snd (mgos_sntp_query x (server scfg) sy1))) =
                connects (outside sy) ++ [server scfg]) /\
               (nc (s_state sy) <> None ->
                connects (outside (snd (mgos_sntp_query x (server scfg) sy1))) =
                connects (outside sy) /\
                nc (s_state (snd (mgos_sntp_query x (server scfg) sy1))) = nc (s_state sy))).
  { split.
    - intros Hnc. rewrite (mgos_sntp_query_idle x (server scfg) sy1) by exact Hnc.
      unfold mg_sntp_connect. destruct (connect_ok x); reflexivity.
    - intros Hnc. destruct (nc (s_state sy)) as [c|] eqn:E; [|contradiction].
      rewrite (mgos_sntp_query_active x (server scfg) sy1 c) by exact E.
      cbn. split; [reflexivity | exact E]. }
  destruct (mgos_sntp_query x (server scfg) sy1) as [r sy2]. cbn [snd] in Hq, Hc.
  destruct Hq as (_ & _ & Hid & Ht & Hn).
  assert (Hid2 : retry_timer_id (s_state sy2) = MGOS_INVALID_TIMER_ID)
    by (rewrite Hid; reflexivity).
  destruct (mgos_sntp_retry_frame scfg x sy2) as (Hnc' & _ & _ & _ & Hcon' & _).
  cbv zeta in Hnc', Hcon'.
  rewrite mgos_sntp_retry_arms in * by assumption. cbv zeta in *.
  destruct Hc as [Hc1 Hc2].
  cbn [s_state outside] in *.
  split; [destruct (synced (s_state sy2)); cbn; rewrite Hn; reflexivity|].
  split; [cbn; rewrite Hn; reflexivity|].
  split; [eexists; cbn; rewrite Ht, Hn; reflexivity|].
  split.
  - intros Hnone. rewrite Hcon'. apply Hc1. exact Hnone.
  - intros Hsome. destruct (Hc2 Hsome) as [Ha Hb]. rewrite Hcon', Hnc'. split; assumption.
Qed.

Lemma timer_cb_rearms_witness :
  retry_timer_id (s_state (mgos_sntp_retry_timer_cb steady_cfg low_draw sys0)) = 1 /\
  nc (s_state (mgos_sntp_retry_timer_cb steady_cfg low_draw sys0)) = None /\
  connects (outside (mgos_sntp_retry_timer_cb steady_cfg low_draw sys0)) =
    [Some "pool.ntp.org"%string].
Proof.
  destruct (timer_cb_rearms steady_cfg low_draw sys0 eq_refl) as (Hid & _ & _ & Hc & _).
  split; [exact Hid|]. split; [reflexivity|]. apply Hc. reflexivity.
Defined.

(** ** The scheduler never goes idle *)

Lemma sessions_live c w : In c (sessions w) -> sntp_conn_live c w = true.
Proof.
  unfold sessions, sntp_conn_live. rewrite in_map_iff. intros (k & Hid & Hin).
  apply filter_In in Hin as [Hin Hs]. apply existsb_exists.
  exists k. split; [exact Hin|]. rewrite Hid, Nat.eqb_refl, Hs. reflexivity.
Qed.

Lemma mgos_sntp_retry_valid scfg x sy :
  enable scfg = true -> 1 <= next_timer (outside sy) ->
  retry_timer_id (s_state (mgos_sntp_retry scfg x sy)) <> MGOS_INVALID_TIMER_ID.
Proof.
  intros He Hn.
  destruct (Z.eq_dec (retry_timer_id (s_state sy)) MGOS_INVALID_TIMER_ID) as [Ht | Ht];
    [|rewrite mgos_sntp_retry_armed by assumption; exact Ht].
  rewrite mgos_sntp_retry_arms by assumption. cbv zeta.
  unfold MGOS_INVALID_TIMER_ID. cbn. lia.
Qed.

Lemma mgos_sntp_retry_timer_cb_tracks scfg x sy :
  enable scfg = true ->
  retry_timer_id (s_state (mgos_sntp_retry_timer_cb scfg x sy)) = next_timer (outside sy).
Proof.
  intros He. unfold mgos_sntp_retry_timer_cb.
  set (sy1 := {| s_state := _; outside := outside sy |}).
  pose proof (mgos_sntp_query_same_backoff x (server scfg) sy1) as Hq.
  destruct (mgos_sntp_query x (server scfg) sy1) as [r sy2]. cbn [snd] in Hq.
  destruct Hq as (_ & _ & Hid & _ & Hn).
  rewrite mgos_sntp_retry_arms by (try exact He; rewrite Hid; reflexivity).
  cbv zeta. cbn. exact Hn.
Qed.

Lemma dispatch_alive_inv scfg e x sy sy' :
  enable scfg = true ->
  alive_inv sy -> dispatch scfg e x sy = Some sy' -> alive_inv sy'.
Proof.
  intros He (Ht & Ho & Ha) Hd.
  split; [apply (dispatch_timer_inv scfg e x sy sy' Ht Hd)|].
  split; [apply (dispatch_one_session scfg e x sy sy' Ho Hd)|].
  pose proof Ht as (Hn & _).
  destruct e as [f arg | ev | id | c ev]; cbn [dispatch] in Hd.
  - injection Hd as <-. exact Ha.
  - destruct (net_handler (outside sy)); [|discriminate]. injection Hd as <-.
    destruct ev; cbn [mgos_sntp_net_ev]; try exact Ha.
    intros _. left. apply mgos_sntp_retry_valid; assumption.
  - destruct (timer_armed id (outside sy)); [|discriminate]. injection Hd as <-.
    intros _. left.
    pose proof (mgos_sntp_retry_timer_cb_tracks scfg x
                  {| s_state := s_state sy; outside := mgos_clear_timer id (outside sy) |} He)
      as Hid.
    rewrite Hid. unfold MGOS_INVALID_TIMER_ID. cbn. lia.
  - destruct (sntp_conn_live c (outside sy)) eqn:Hlive; [|discriminate].
    apply live_in_sessions in Hlive. unfold one_session in Ho. rewrite Ho in Hlive.
    unfold tracked in Hlive.
    destruct (nc (s_state sy)) as [c'|] eqn:Hnc; [|contradiction].
    destruct Hlive as [-> | []].
    destruct ev as [| time | | | | n]; injection Hd as <-;
      try (intros _; right; cbn; rewrite Hnc; discriminate).
    + assert (G : nc (s_state (mgos_sntp_ev scfg x c (MG_SNTP_REPLY time) sy)) <> None)
        by (rewrite mgos_sntp_ev_reply_s_state; cbn; rewrite Hnc; discriminate).
      intros _. right. exact G.
    + assert (G : retry_timer_id (s_state (mgos_sntp_ev scfg x c MG_EV_CLOSE sy))
                  <> MGOS_INVALID_TIMER_ID).
      { rewrite (mgos_sntp_ev_close_tracked scfg x c sy Hnc).
        apply mgos_sntp_retry_valid; assumption. }
      intros _. left. exact G.
Qed.

Lemma run_alive_inv scfg es : enable scfg = true ->
  forall sy sy', alive_inv sy -> run scfg es sy = Some sy' -> alive_inv sy'.
Proof.
  intros He. induction es as [| [e x] es IH]; intros sy sy' H Hr; cbn in Hr.
  - injection Hr as <-. exact H.
  - destruct (dispatch scfg e x sy) as [sy1|] eqn:Hd; [|discriminate].
    apply (IH sy1); [|exact Hr].
    apply (dispatch_alive_inv scfg e x sy); assumption.
Qed.

Lemma boot_alive_inv scfg : alive_inv (boot scfg).
Proof.
  split; [apply boot_timer_inv|]. split; [apply boot_one_session|].
  unfold boot, mgos_sntp_init.
  destruct (enable scfg); [destruct (server scfg)|]; cbn; lia.
Qed.

(** X3. With the feature enabled, once the scheduler has armed its first
    timer it never goes idle: in every state reached from boot either the
    tracked timer is armed, or a session is tracked and still live, so
    that its close event will schedule the next attempt. *)
Theorem never_idle scfg es sy :
  enable scfg = true ->
  run scfg es (boot scfg) = Some sy ->
  1 < next_timer (outside sy) ->
  (retry_timer_id (s_state sy) <> MGOS_INVALID_TIMER_ID /\
   timer_armed (retry_timer_id (s_state sy)) (outside sy) = true) \/
  (exists c, nc (s_state sy) = Some c /\ sntp_conn_live c (outside sy) = true).
Proof.
  intros He Hr Hstarted.
  destruct (run_alive_inv scfg es He _ _ (boot_alive_inv scfg) Hr) as (Ht & Ho & Ha).
  destruct (Ha Hstarted) as [Hid | Hnc].
  - left. split; [exact Hid|].
    destruct Ht as (_ & [[Hz _] | (d & Htm & _)]); [contradiction|].
    unfold timer_armed. rewrite Htm. cbn. rewrite Z.eqb_refl. reflexivity.
  - right. destruct (nc (s_state sy)) as [c|] eqn:E; [|contradiction].
    exists c. split; [reflexivity|]. apply sessions_live.
    unfold one_session, tracked in Ho. rewrite Ho, E. left. reflexivity.
Qed.

(** The first attempt was answered: session 1 is open, no timer is armed. *)
Lemma never_idle_witness :
  exists sy,
    run steady_cfg (first_attempt ++ [(Ev_conn 1%nat (MG_SNTP_REPLY 100), mid_draw)])
        (boot steady_cfg) = Some sy /\
    retry_timer_id (s_state sy) = MGOS_INVALID_TIMER_ID /\
    nc (s_state sy) = Some 1%nat /\
    sntp_conn_live 1%nat (outside sy) = true.
Proof.
  eexists. split; [reflexivity|].
  match goal with |- _ /\ _ /\ sntp_conn_live _ (outside ?s) = _ =>
    destruct (never_idle steady_cfg
                (first_attempt ++ [(Ev_conn 1%nat (MG_SNTP_REPLY 100), mid_draw)])
                s eq_refl eq_refl) as [[Hid _] | (c & Hnc & Hlive)]
  end.
  - reflexivity.
  - exfalso. apply Hid. reflexivity.
  - split; [reflexivity|]. split; [reflexivity|]. reflexivity.
Defined.

(** ** The registry over a run *)

Lemma mgos_sntp_retry_timer_cb_registry scfg x sy :
  time_change_cbs (s_state (mgos_sntp_retry_timer_cb scfg x sy)) =
  time_change_cbs (s_state sy).
Proof.
  unfold mgos_sntp_retry_timer_cb.
  set (sy1 := {| s_state := _; outside := outside sy |}).
  assert (Hq : time_change_cbs (s_state (snd (mgos_sntp_query x (server scfg) sy1)))
               = time_change_cbs (s_state sy)).
  { destruct (nc (s_state sy)) as [c|] eqn:E.
    - rewrite (mgos_sntp_query_active x (server scfg) sy1 c) by exact E. reflexivity.
    - rewrite (mgos_sntp_query_idle x (server scfg) sy1) by exact E. reflexivity. }
  destruct (mgos_sntp_query x (server scfg) sy1) as [r sy2]. cbn [snd] in Hq.
  destruct (mgos_sntp_retry_frame scfg x sy2) as (_ & _ & H & _).
  cbv zeta in H. rewrite H. exact Hq.
Qed.

Lemma mgos_sntp_ev_registry scfg x c ev sy :
  time_change_cbs (s_state (mgos_sntp_ev scfg x c ev sy)) = time_change_cbs (s_state sy).
Proof.
  destruct ev as [| time | | | | n]; try reflexivity.
  - rewrite mgos_sntp_ev_reply_s_state. reflexivity.
  - cbn [mgos_sntp_ev].
    destruct (nc (s_state sy)) as [c'|]; [|reflexivity].
    destruct (Nat.eqb c' c); [|reflexivity].
    destruct (mgos_sntp_retry_frame scfg x
                {| s_state := set_nc None (s_state sy); outside := outside sy |})
      as (_ & _ & H & _).
    exact H.
Qed.

Lemma dispatch_registry scfg e x sy sy' :
  dispatch scfg e x sy = Some sy' ->
  time_change_cbs (s_state sy') =
  rev (registrations [(e, x)]) ++ time_change_cbs (s_state sy).
Proof.
  intros Hd. destruct e as [f arg | ev | id | c ev]; cbn [dispatch] in Hd.
  - injection Hd as <-. reflexivity.
  - destruct (net_handler (outside sy)); [|discriminate]. injection Hd as <-.
    destruct ev; cbn [mgos_sntp_net_ev]; try reflexivity.
    destruct (mgos_sntp_retry_frame scfg x sy) as (_ & _ & H & _). exact H.
  - destruct (timer_armed id (outside sy)); [|discriminate]. injection Hd as <-.
    exact (mgos_sntp_retry_timer_cb_registry scfg x
             {| s_state := s_state sy; outside := mgos_clear_timer id (outside sy) |}).
  - destruct (sntp_conn_live c (outside sy)); [|discriminate].
    destruct ev as [| time | | | | n]; injection Hd as <-.
    + exact (mgos_sntp_ev_registry scfg x c MG_EV_CONNECT sy).
    + exact (mgos_sntp_ev_registry scfg x c (MG_SNTP_REPLY time) sy).
    + exact (mgos_sntp_ev_registry scfg x c MG_SNTP_MALFORMED_REPLY sy).
    + exact (mgos_sntp_ev_registry scfg x c MG_SNTP_FAILED sy).
    + exact (mgos_sntp_ev_registry scfg x c MG_EV_CLOSE sy).
    + exact (mgos_sntp_ev_registry scfg x c (MG_EV_OTHER n) sy).
Qed.

Lemma registrations_cons e x es :
  registrations ((e, x) :: es) = registrations [(e, x)] ++ registrations es.
Proof. destruct e; reflexivity. Qed.

Lemma run_registry scfg es : forall sy sy',
  run scfg es sy = Some sy' ->
  time_change_cbs (s_state sy') = rev (registrations es) ++ time_change_cbs (s_state sy).
Proof.
  induction es as [| [e x] es IH]; intros sy sy' Hr; cbn [run] in Hr.
  - injection Hr as <-. reflexivity.
  - destruct (dispatch scfg e x sy) as [sy1|] eqn:Hd; [|discriminate].
    rewrite (IH sy1 sy' Hr), (dispatch_registry scfg e x sy sy1 Hd).
    rewrite (registrations_cons e x es), rev_app_distr, app_assoc. reflexivity.
Qed.

(** X4. No event ever removes or reorders an observer: after any run the
    registry is the observers registered during the run, latest first, in
    front of the registry the run started with.  After an initialisation
    that succeeded with the feature enabled, the built-in observer is the
    last entry of the registry in every state reached from boot. *)
Theorem registry_only_grows scfg es sy sy' :
  run scfg es sy = Some sy' ->
  time_change_cbs (s_state sy') = rev (registrations es) ++ time_change_cbs (s_state sy) /\
  (sy = boot scfg -> enable scfg = true -> server scfg <> None ->
   time_change_cbs (s_state sy') = rev (registrations es) ++ [builtin_observer]).
Proof.
  intros Hr. split; [apply (run_registry scfg es sy sy' Hr)|].
  intros -> He Hs. rewrite (run_registry scfg es _ sy' Hr).
  unfold boot, mgos_sntp_init. rewrite He.
  destruct (server scfg); [reflexivity | contradiction].
Qed.

Lemma registry_only_grows_witness :
  time_change_cbs (s_state after_answer) =
  [ {| cb := Cb_extern 2; cb_arg := 20 |}; {| cb := Cb_extern 1; cb_arg := 10 |};
    builtin_observer ].
Proof.
  destruct (registry_only_grows steady_cfg answered_run (boot steady_cfg) after_answer eq_refl)
    as [_ H].
  rewrite H; [reflexivity | reflexivity | reflexivity | discriminate].
Defined.

(** ** What a reply does to the manager *)

Lemma call_cb_conns delta w o :
  conns (call_cb delta w o) =
  if is_builtin o then mgos_time_change_cb delta (conns w) else conns w.
Proof.
  unfold call_cb, is_builtin. destruct (cb o); reflexivity.
Qed.

Lemma fold_call_cb_conns delta l : forall w,
  conns (fold_left (call_cb delta) l w) =
  Nat.iter (builtin_count l) (mgos_time_change_cb delta) (conns w).
Proof.
  induction l as [| o l IH]; intros w; [reflexivity|].
  cbn [fold_left]. rewrite IH, call_cb_conns. unfold builtin_count.
  cbn [filter]. destruct (is_builtin o); [|reflexivity].
  cbn [List.length]. rewrite Nat.iter_succ_r. reflexivity.
Qed.

Lemma builtin_count_app l1 l2 :
  builtin_count (l1 ++ l2) = (builtin_count l1 + builtin_count l2)%nat.
Proof. unfold builtin_count. rewrite filter_app, length_app. reflexivity. Qed.

Lemma builtin_count_rev l : builtin_count (rev l) = builtin_count l.
Proof.
  induction l as [| o l IH]; [reflexivity|].
  cbn [rev]. rewrite builtin_count_app, IH. unfold builtin_count. cbn [filter].
  destruct (is_builtin o); cbn [List.length]; lia.
Qed.

Lemma registry_shape scfg es sy :
  run scfg es (boot scfg) = Some sy ->
  enable scfg = true -> server scfg <> None ->
  time_change_cbs (s_state sy) = rev (registrations es) ++ [builtin_observer].
Proof.
  intros Hr He Hs. rewrite (run_registry scfg es _ sy Hr).
  unfold boot, mgos_sntp_init. rewrite He.
  destruct (server scfg); [reflexivity | contradiction].
Qed.

(** X5. A reply whose time is applied changes the connections of the
    manager only by running the built-in observer once for each time it
    is registered, and then setting the close flag of the replying
    session.  When the module state is one reached from a successful boot,
    with other modules registering foreign observers only, the built-in
    observer is registered exactly once, so that, whatever connections
    the manager holds, every strictly positive deadline moves by [delta]
    exactly once. *)
Theorem reply_shifts_deadlines scfg x c time sy :
  settime_ok x = true ->
  let delta := (time - now x)%Q in
  let sy' := mgos_sntp_ev scfg x c (MG_SNTP_REPLY time) sy in
  conns (outside sy') =
    conns (or_flags c MG_F_CLOSE_IMMEDIATELY
             (set_conns (Nat.iter (builtin_count (time_change_cbs (s_state sy)))
                                  (mgos_time_change_cb delta) (conns (outside sy)))
                        (outside sy))) /\
  (forall es sy0,
     run scfg es (boot scfg) = Some sy0 ->
     s_state sy = s_state sy0 ->
     enable scfg = true -> server scfg <> None ->
     builtin_count (registrations es) = 0%nat ->
     builtin_count (time_change_cbs (s_state sy)) = 1%nat /\
     conns (outside sy') =
       conns (or_flags c MG_F_CLOSE_IMMEDIATELY
                (set_conns (mgos_time_change_cb delta (conns (outside sy))) (outside sy)))).
Proof.
  intros Hok. cbv zeta.
  assert (Hgen : conns (outside (mgos_sntp_ev scfg x c (MG_SNTP_REPLY time) sy)) =
    conns (or_flags c MG_F_CLOSE_IMMEDIATELY
             (set_conns (Nat.iter (builtin_count (time_change_cbs (s_state sy)))
                                  (mgos_time_change_cb (time - now x)%Q) (conns (outside sy)))
                        (outside sy)))).
  { rewrite mgos_sntp_ev_reply_outside. cbv zeta. rewrite Hok.
    set (w1 := fold_left _ _ _).
    assert (Hw1 : conns w1 =
                  Nat.iter (builtin_count (time_change_cbs (s_state sy)))
                           (mgos_time_change_cb (time - now x)%Q) (conns (outside sy)))
      by (unfold w1; rewrite fold_call_cb_conns; reflexivity).
    destruct (retry_timer_id (s_state sy) =? MGOS_INVALID_TIMER_ID);
      unfold or_flags, mgos_clear_timer; cbn [conns set_conns set_timers];
      rewrite Hw1; reflexivity. }
  split; [exact Hgen|].
  intros es sy0 Hr Hst He Hs Hz.
  assert (Hone : builtin_count (time_change_cbs (s_state sy)) = 1%nat).
  { rewrite Hst, (registry_shape scfg es sy0 Hr He Hs).
    rewrite builtin_count_app, builtin_count_rev, Hz. reflexivity. }
  split; [exact Hone|]. rewrite Hgen, Hone. reflexivity.
Qed.

(** The module state of [before_reply] with a busier manager: session 1
    and two connections of other modules, one with a deadline of 12 s. *)
Lemma reply_shifts_deadlines_witness :
  let sy' := mgos_sntp_ev steady_cfg mid_draw 1%nat (MG_SNTP_REPLY 100) busy_sys in
  builtin_count (time_change_cbs (s_state busy_sys)) = 1%nat /\
  map ev_timer_time (conns (outside sy')) = [0%Q; ((12 # 1) + (100 - 5))%Q; ((-3) # 2)%Q] /\
  map flags (conns (outside sy')) = [2048; 0; 4].
Proof.
  destruct (reply_shifts_deadlines steady_cfg mid_draw 1%nat 100 busy_sys eq_refl)
    as [_ H].
  destruct (H first_attempt before_reply eq_refl eq_refl eq_refl) as [Hone Hc].
  - discriminate.
  - reflexivity.
  - cbv zeta in *. split; [exact Hone|]. rewrite Hc. split; reflexivity.
Defined.

(** ** Once synced, always synced *)

Lemma keeps_regime_trans sy1 sy2 sy3 :
  keeps_regime sy1 sy2 -> keeps_regime sy2 sy3 -> keeps_regime sy1 sy3.
Proof.
  unfold keeps_regime. intros [H1 H2] [H3 H4]. split; [congruence|].
  intros Hs. rewrite H4 by congruence. apply H2. exact Hs.
Qed.

Lemma mgos_sntp_retry_keeps_regime scfg x sy :
  keeps_regime sy (mgos_sntp_retry scfg x sy).
Proof.
  destruct (enable scfg) eqn:He;
    [|rewrite mgos_sntp_retry_disabled by assumption; split; reflexivity].
  destruct (Z.eq_dec (retry_timer_id (s_state sy)) MGOS_INVALID_TIMER_ID) as [Ht | Ht];
    [|rewrite mgos_sntp_retry_armed by assumption; split; reflexivity].
  rewrite mgos_sntp_retry_arms by assumption. cbv zeta. unfold keeps_regime.
  destruct (synced (s_state sy)) eqn:Hs; cbn; rewrite ?Hs; split;
    try reflexivity; discriminate.
Qed.

Lemma mgos_sntp_retry_timer_cb_keeps_regime scfg x sy :
  keeps_regime sy (mgos_sntp_retry_timer_cb scfg x sy).
Proof.
  unfold mgos_sntp_retry_timer_cb.
  set (sy1 := {| s_state := _; outside := outside sy |}).
  pose proof (mgos_sntp_query_same_backoff x (server scfg) sy1) as Hq.
  destruct (mgos_sntp_query x (server scfg) sy1) as [r sy2]. cbn [snd] in Hq.
  apply (keeps_regime_trans sy sy2); [|apply mgos_sntp_retry_keeps_regime].
  destruct Hq as (Hs & Hr & _). split; [exact Hs | intros _; exact Hr].
Qed.

Lemma mgos_sntp_ev_keeps_regime scfg x c ev sy :
  (forall time, ev <> MG_SNTP_REPLY time) ->
  keeps_regime sy (mgos_sntp_ev scfg x c ev sy).
Proof.
  intros Hnr. destruct ev as [| time | | | | n]; try (split; reflexivity).
  - exfalso. apply (Hnr time). reflexivity.
  - cbn [mgos_sntp_ev].
    destruct (nc (s_state sy)) as [c'|]; [|split; reflexivity].
    destruct (Nat.eqb c' c); [|split; reflexivity].
    apply (mgos_sntp_retry_keeps_regime scfg x
             {| s_state := set_nc None (s_state sy); outside := outside sy |}).
Qed.

Lemma dispatch_regime scfg e x sy sy' :
  dispatch scfg e x sy = Some sy' ->
  (is_reply e = false /\ keeps_regime sy sy') \/
  (is_reply e = true /\ synced (s_state sy') = true /\ retry_timeout_ms (s_state sy') = 0).
Proof.
  intros Hd. destruct e as [f arg | ev | id | c ev]; cbn [dispatch] in Hd.
  - injection Hd as <-. left. split; [reflexivity | split; reflexivity].
  - destruct (net_handler (outside sy)); [|discriminate]. injection Hd as <-.
    left. split; [reflexivity|].
    destruct ev; cbn [mgos_sntp_net_ev]; try (split; reflexivity).
    apply mgos_sntp_retry_keeps_regime.
  - destruct (timer_armed id (outside sy)); [|discriminate]. injection Hd as <-.
    left. split; [reflexivity|].
    exact (mgos_sntp_retry_timer_cb_keeps_regime scfg x
             {| s_state := s_state sy; outside := mgos_clear_timer id (outside sy) |}).
  - destruct (sntp_conn_live c (outside sy)); [|discriminate].
    destruct ev as [| time | | | | n]; injection Hd as <-.
    + left. split; [reflexivity|].
      apply (mgos_sntp_ev_keeps_regime scfg x c MG_EV_CONNECT sy). discriminate.
    + right. split; [reflexivity|].
      pose proof (mgos_sntp_ev_reply_s_state scfg x c time sy) as E.
      split; [exact (f_equal synced E) | exact (f_equal retry_timeout_ms E)].
    + left. split; [reflexivity|].
      apply (mgos_sntp_ev_keeps_regime scfg x c MG_SNTP_MALFORMED_REPLY sy). discriminate.
    + left. split; [reflexivity|].
      apply (mgos_sntp_ev_keeps_regime scfg x c MG_SNTP_FAILED sy). discriminate.
    + left. split; [reflexivity|].
      apply (mgos_sntp_ev_keeps_regime scfg x c MG_EV_CLOSE sy). discriminate.
    + left. split; [reflexivity|].
      apply (mgos_sntp_ev_keeps_regime scfg x c (MG_EV_OTHER n) sy). discriminate.
Qed.

Lemma run_steady scfg es : forall sy sy',
  steady_inv sy -> run scfg es sy = Some sy' ->
  steady_inv sy' /\ (synced (s_state sy) = true -> synced (s_state sy') = true).
Proof.
  induction es as [| [e x] es IH]; intros sy sy' Hinv Hr; cbn [run] in Hr.
  - injection Hr as <-. split; [exact Hinv | trivial].
  - destruct (dispatch scfg e x sy) as [sy1|] eqn:Hd; [|discriminate].
    assert (H1 : steady_inv sy1 /\ (synced (s_state sy) = true -> synced (s_state sy1) = true)).
    { destruct (dispatch_regime scfg e x sy sy1 Hd) as [[_ [Hs Hk]] | (_ & Hs & Hz)].
      - split.
        + intros Hs1. rewrite Hs in Hs1. rewrite (Hk Hs1). apply Hinv. exact Hs1.
        + intros Hs0. rewrite Hs. exact Hs0.
      - split; [intros _; exact Hz | intros _; exact Hs]. }
    destruct H1 as [Hinv1 Hmono1].
    destruct (IH sy1 sy' Hinv1 Hr) as [Hinv' Hmono'].
    split; [exact Hinv' | intros Hs; apply Hmono', Hmono1, Hs].
Qed.

(** X6. No event ever clears [synced]: once a reply has been handled the
    module stays synced for good, and its backoff stays at 0 through every
    later failure, so a failed attempt after the first sync is retried at
    the update interval and never by exponential backoff. *)
Theorem synced_is_permanent scfg es sy es' sy' :
  run scfg es (boot scfg) = Some sy ->
  run scfg es' sy = Some sy' ->
  synced (s_state sy) = true ->
  retry_timeout_ms (s_state sy) = 0 /\
  synced (s_state sy') = true /\
  retry_timeout_ms (s_state sy') = 0 /\
  (forall x, enable scfg = true ->
     retry_timer_id (s_state sy') = MGOS_INVALID_TIMER_ID ->
     timers (outside (mgos_sntp_retry scfg x sy')) =
       timers (outside sy') ++
       [(retry_timer_id (s_state (mgos_sntp_retry scfg x sy')),
         jittered (Int.mul (update_interval scfg) 1000) (rand_frac x))]).
Proof.
  intros Hr Hr' Hs.
  assert (H0 : steady_inv (boot scfg)).
  { unfold steady_inv, boot, mgos_sntp_init.
    destruct (enable scfg); [destruct (server scfg)|]; cbn; discriminate. }
  destruct (run_steady scfg es _ _ H0 Hr) as [Hinv _].
  destruct (run_steady scfg es' _ _ Hinv Hr') as [Hinv' Hmono].
  split; [apply Hinv; exact Hs|].
  split; [apply Hmono; exact Hs|].
  split; [apply Hinv', Hmono, Hs|].
  intros x He Ht.
  destruct (mgos_sntp_retry_steady_arms scfg x sy' He (Hmono Hs) Ht) as (Htm & _).
  exact Htm.
Qed.

Lemma synced_is_permanent_witness :
  synced (s_state after_late_failure) = true /\
  retry_timeout_ms (s_state after_late_failure) = 0 /\
  timers (outside after_late_failure) = [(4, 7200000)].
Proof.
  destruct (synced_is_permanent steady_cfg answered_run after_answer
              failure_after_sync after_late_failure eq_refl eq_refl eq_refl)
    as (_ & Hs & Hz & _).
  split; [exact Hs|]. split; [exact Hz | reflexivity].
Defined.

(** ** Link-up events *)

(** X7. The network event handler reacts to [MGOS_NET_EV_IP_ACQUIRED]
    alone, never opens or closes a session, and is idempotent: a second
    link-up event changes nothing, whatever the random draw, as long as
    the timer service does not hand out the invalid identifier. *)
Theorem net_ev_idempotent scfg x x' ev sy :
  next_timer (outside sy) <> MGOS_INVALID_TIMER_ID ->
  let sy' := mgos_sntp_net_ev scfg x ev sy in
  (ev <> MGOS_NET_EV_IP_ACQUIRED -> sy' = sy) /\
  nc (s_state sy') = nc (s_state sy) /\
  conns (outside sy') = conns (outside sy) /\
  connects (outside sy') = connects (outside sy) /\
  mgos_sntp_net_ev scfg x' ev sy' = sy' /\
  (List.length (timers (outside sy')) <= S (List.length (timers (outside sy))))%nat.
Proof.
  intros Hn. cbv zeta.
  destruct ev; cbn [mgos_sntp_net_ev];
    try (repeat split; try reflexivity; lia).
  destruct (mgos_sntp_retry_frame scfg x sy) as (Hnc & _ & _ & Hc & Hk & _).
  cbv zeta in Hnc, Hc, Hk.
  split; [intros H; contradiction|]. split; [exact Hnc|]. split; [exact Hc|].
  split; [exact Hk|].
  destruct (enable scfg) eqn:He.
  - destruct (Z.eq_dec (retry_timer_id (s_state sy)) MGOS_INVALID_TIMER_ID) as [Ht | Ht].
    + split.
      * apply mgos_sntp_retry_armed.
        rewrite mgos_sntp_retry_arms by assumption. cbv zeta. exact Hn.
      * rewrite mgos_sntp_retry_arms by assumption. cbv zeta. cbn.
        rewrite length_app. cbn. lia.
    + rewrite (mgos_sntp_retry_armed scfg x sy Ht). split; [|lia].
      apply mgos_sntp_retry_armed. exact Ht.
  - rewrite (mgos_sntp_retry_disabled scfg x sy He). split; [|lia].
    apply mgos_sntp_retry_disabled. exact He.
Qed.

Lemma net_ev_idempotent_witness :
  let sy' := mgos_sntp_net_ev steady_cfg mid_draw MGOS_NET_EV_IP_ACQUIRED (boot steady_cfg) in
  timers (outside sy') = [(1, 10000)] /\
  mgos_sntp_net_ev steady_cfg low_draw MGOS_NET_EV_IP_ACQUIRED sy' = sy' /\
  connects (outside sy') = [].
Proof.
  destruct (net_ev_idempotent steady_cfg mid_draw low_draw MGOS_NET_EV_IP_ACQUIRED
              (boot steady_cfg)) as (_ & _ & _ & Hk & Hidem & _).
  - discriminate.
  - cbv zeta. split; [reflexivity|]. split; [exact Hidem | exact Hk].
Defined.

(** ** Where connections come from *)

Lemma mgos_sntp_ev_connects scfg x c ev sy :
  connects (outside (mgos_sntp_ev scfg x c ev sy)) = connects (outside sy).
Proof.
  destruct ev as [| time | | | | n]; try reflexivity.
  - rewrite mgos_sntp_ev_reply_outside. cbv zeta.
    set (w1 := if settime_ok x then _ else _).
    assert (Hw1 : connects w1 = connects (outside sy)).
    { unfold w1. destruct (settime_ok x); [|reflexivity].
      destruct (fold_call_cb_frame (time - now x)%Q (time_change_cbs (s_state sy))
                  (set_sys_time (Some (timeval_of time)) (outside sy)))
        as (_ & _ & _ & Hk & _).
      exact Hk. }
    destruct (retry_timer_id (s_state sy) =? MGOS_INVALID_TIMER_ID); exact Hw1.
  - cbn [mgos_sntp_ev].
    destruct (nc (s_state sy)) as [c'|]; [|reflexivity].
    destruct (Nat.eqb c' c); [|reflexivity].
    destruct (mgos_sntp_retry_frame scfg x
                {| s_state := set_nc None (s_state sy); outside := outside sy |})
      as (_ & _ & _ & _ & H & _).
    exact H.
Qed.

(** One turn of the loop calls [mg_sntp_connect] at most once, with the
    configured server, and only on a timer expiry. *)
Lemma dispatch_connects scfg e x sy sy' :
  dispatch scfg e x sy = Some sy' ->
  connects (outside sy') = connects (outside sy) \/
  ((exists id, e = Ev_timer id) /\
   connects (outside sy') = connects (outside sy) ++ [server scfg]).
Proof.
  intros Hd. destruct e as [f arg | ev | id | c ev]; cbn [dispatch] in Hd.
  - injection Hd as <-. left. reflexivity.
  - destruct (net_handler (outside sy)); [|discriminate]. injection Hd as <-.
    left. destruct ev; cbn [mgos_sntp_net_ev]; try reflexivity.
    destruct (mgos_sntp_retry_frame scfg x sy) as (_ & _ & _ & _ & H & _). exact H.
  - destruct (timer_armed id (outside sy)); [|discriminate]. injection Hd as <-.
    pose (sy0 := {| s_state := s_state sy; outside := mgos_clear_timer id (outside sy) |}).
    assert (G : connects (outside (mgos_sntp_retry_timer_cb scfg x sy0)) = connects (outside sy) \/
                connects (outside (mgos_sntp_retry_timer_cb scfg x sy0)) =
                connects (outside sy) ++ [server scfg]).
    { unfold mgos_sntp_retry_timer_cb.
      set (sy1 := {| s_state := _; outside := outside sy0 |}).
      assert (Hq : connects (outside (snd (mgos_sntp_query x (server scfg) sy1))) =
                   connects (outside sy) \/
                   connects (outside (snd (mgos_sntp_query x (server scfg) sy1))) =
                   connects (outside sy) ++ [server scfg]).
      { destruct (nc (s_state sy)) as [c|] eqn:E.
        - left. rewrite (mgos_sntp_query_active x (server scfg) sy1 c) by exact E.
          reflexivity.
        - right. rewrite (mgos_sntp_query_idle x (server scfg) sy1) by exact E.
          unfold mg_sntp_connect. destruct (connect_ok x); reflexivity. }
      destruct (mgos_sntp_query x (server scfg) sy1) as [r sy2]. cbn [snd] in Hq.
      destruct (mgos_sntp_retry_frame scfg x sy2) as (_ & _ & _ & _ & H & _).
      cbv zeta in H. rewrite H. exact Hq. }
    destruct G as [G | G]; [left; exact G | right; split; [eexists; reflexivity | exact G]].
  - destruct (sntp_conn_live c (outside sy)); [|discriminate]. left.
    destruct ev as [| time | | | | n]; injection Hd as <-.
    + exact (mgos_sntp_ev_connects scfg x c MG_EV_CONNECT sy).
    + exact (mgos_sntp_ev_connects scfg x c (MG_SNTP_REPLY time) sy).
    + exact (mgos_sntp_ev_connects scfg x c MG_SNTP_MALFORMED_REPLY sy).
    + exact (mgos_sntp_ev_connects scfg x c MG_SNTP_FAILED sy).
    + exact (mgos_sntp_ev_connects scfg x c MG_EV_CLOSE sy).
    + exact (mgos_sntp_ev_connects scfg x c (MG_EV_OTHER n) sy).
Qed.

(** X8. Connections are opened from the timer callback only: over any
    run, the number of calls of [mg_sntp_connect] grows by at most the
    number of timer expiries in the run, so neither a link-up event nor a
    reply, an error or a close ever connects. *)
Theorem connects_bounded_by_timers scfg es : forall sy sy',
  run scfg es sy = Some sy' ->
  (List.length (connects (outside sy'))
   <= List.length (connects (outside sy)) + timer_events es)%nat.
Proof.
  induction es as [| [e x] es IH]; intros sy sy' Hr; cbn [run] in Hr.
  - injection Hr as <-. cbn. lia.
  - destruct (dispatch scfg e x sy) as [sy1|] eqn:Hd; [|discriminate].
    pose proof (IH sy1 sy' Hr) as H.
    destruct (dispatch_connects scfg e x sy sy1 Hd) as [E | [[id ->] E]].
    + rewrite E in H. destruct e; cbn [timer_events]; lia.
    + rewrite E, length_app in H. cbn in H. cbn [timer_events]. lia.
Qed.

Lemma connects_bounded_by_timers_witness :
  (List.length (connects (outside after_answer)) <= 0 + timer_events answered_run)%nat /\
  timer_events answered_run = 1%nat.
Proof.
  split; [|reflexivity].
  apply (connects_bounded_by_timers steady_cfg answered_run (boot steady_cfg) after_answer).
  reflexivity.
Defined.

Lemma dispatch_connects_inv scfg e x sy sy' :
  connects_inv scfg sy -> dispatch scfg e x sy = Some sy' -> connects_inv scfg sy'.
Proof.
  intros [Hall Hnone] Hd. split.
  - destruct (dispatch_connects scfg e x sy sy' Hd) as [E | [_ E]]; rewrite E.
    + exact Hall.
    + apply Forall_app. split; [exact Hall | constructor; [reflexivity | constructor]].
  - intros Hs. destruct (Hnone Hs) as (Hk & Ht & Hc & Hh).
    destruct e as [f arg | ev | id | c ev]; cbn [dispatch] in Hd.
    + injection Hd as <-. repeat split; assumption.
    + destruct (net_handler (outside sy)) eqn:Hnh; [|discriminate]. injection Hd as <-.
      destruct (enable scfg) eqn:He.
      * discriminate (Hh eq_refl).
      * rewrite mgos_sntp_net_ev_disabled by exact He.
        repeat split; try assumption. intros; discriminate.
    + unfold timer_armed in Hd. rewrite Ht in Hd. discriminate.
    + unfold sntp_conn_live in Hd. rewrite Hc in Hd. discriminate.
Qed.

Lemma run_connects_inv scfg es : forall sy sy',
  connects_inv scfg sy -> run scfg es sy = Some sy' -> connects_inv scfg sy'.
Proof.
  induction es as [| [e x] es IH]; intros sy sy' H Hr; cbn [run] in Hr.
  - injection Hr as <-. exact H.
  - destruct (dispatch scfg e x sy) as [sy1|] eqn:Hd; [|discriminate].
    apply (IH sy1); [|exact Hr].
    apply (dispatch_connects_inv scfg e x sy); assumption.
Qed.

Lemma boot_connects_inv scfg : connects_inv scfg (boot scfg).
Proof.
  unfold connects_inv, boot, mgos_sntp_init.
  destruct (enable scfg); [destruct (server scfg)|]; cbn;
    (split; [constructor|]); intros H; try discriminate; repeat split.
Qed.

(** X9. [mg_sntp_connect] is never called with a NULL server: in every
    state reached from boot, each call made so far passed the configured
    server, and when no server is configured no call was made at all. *)
Theorem never_connects_to_null scfg es sy :
  run scfg es (boot scfg) = Some sy ->
  Forall (fun srv => srv = server scfg /\ srv <> None) (connects (outside sy)).
Proof.
  intros Hr.
  destruct (run_connects_inv scfg es _ _ (boot_connects_inv scfg) Hr) as [Hall Hnone].
  destruct (server scfg) as [a|] eqn:Hs.
  - apply Forall_impl with (2 := Hall). intros srv ->. split; [reflexivity | discriminate].
  - destruct (Hnone eq_refl) as (Hk & _). rewrite Hk. constructor.
Qed.

Lemma never_connects_to_null_witness :
  connects (outside after_answer) = [Some "pool.ntp.org"%string] /\
  Forall (fun srv => srv = server steady_cfg /\ srv <> None) (connects (outside after_answer)).
Proof.
  split; [reflexivity|].
  apply (never_connects_to_null steady_cfg answered_run after_answer). reflexivity.
Defined.

(** ** A retry minimum of 0 *)

Lemma jittered_0 frac : jittered 0 frac = 0.
Proof.
  unfold jittered, double_to_int, mgos_rand_range, int_to_double, inject_Z.
  destruct frac as [n d]. unfold Qplus, Qminus, Qmult, Qopp. cbn [Qnum Qden].
  replace (0 * 9 * Z.pos (10 * 10 * d) + (0 * 11 * Z.pos 10 + - (0 * 9) * Z.pos 10) * n * Z.pos 10)
    with 0 by ring.
  reflexivity.
Qed.

Lemma backoff_ms_0 scfg :
  retry_min scfg <= 0 <= retry_max scfg ->
  Int.in_range (retry_min scfg * 1000) -> Int.in_range (retry_max scfg * 1000) ->
  backoff_ms scfg 0 = 0.
Proof.
  intros Hb Hmin Hmax. rewrite backoff_ms_clamp.
  - lia.
  - repeat split; try apply Hmin; try apply Hmax;
      unfold Int.INT_MIN, Int.INT_MAX; lia.
Qed.

Lemma same_backoff_spin_inv sy sy' : same_backoff sy sy' -> spin_inv sy -> spin_inv sy'.
Proof.
  unfold same_backoff, spin_inv. intros (Hs & Hr & _ & Ht & _) H.
  rewrite Hs, Hr, Ht. exact H.
Qed.

Lemma mgos_sntp_retry_spin_inv scfg x sy :
  backoff_ms scfg 0 = 0 -> spin_inv sy -> spin_inv (mgos_sntp_retry scfg x sy).
Proof.
  intros Hb Hinv.
  destruct (enable scfg) eqn:He;
    [|rewrite mgos_sntp_retry_disabled by assumption; exact Hinv].
  destruct (Z.eq_dec (retry_timer_id (s_state sy)) MGOS_INVALID_TIMER_ID) as [Ht | Ht];
    [|rewrite mgos_sntp_retry_armed by assumption; exact Hinv].
  destruct Hinv as (Hs & Hr & Hall).
  destruct (mgos_sntp_retry_backoff scfg x sy He Ht Hs) as (Hs' & Hr' & _ & _ & Ht').
  cbv zeta in Hr', Ht'. rewrite Hr, Hb in Hr', Ht'. rewrite jittered_0 in Ht'.
  unfold spin_inv. rewrite Hs', Hr', Ht'.
  split; [reflexivity|]. split; [reflexivity|].
  apply Forall_app. split; [exact Hall | constructor; [reflexivity | constructor]].
Qed.

Lemma mgos_sntp_retry_timer_cb_spin_inv scfg x sy :
  backoff_ms scfg 0 = 0 -> spin_inv sy -> spin_inv (mgos_sntp_retry_timer_cb scfg x sy).
Proof.
  intros Hb Hinv. unfold mgos_sntp_retry_timer_cb.
  set (sy1 := {| s_state := _; outside := outside sy |}).
  assert (H1 : spin_inv sy1) by exact Hinv.
  pose proof (mgos_sntp_query_same_backoff x (server scfg) sy1) as Hq.
  destruct (mgos_sntp_query x (server scfg) sy1) as [r sy2]. cbn [snd] in Hq.
  apply mgos_sntp_retry_spin_inv; [exact Hb|].
  apply (same_backoff_spin_inv sy1 sy2 Hq H1).
Qed.

Lemma mgos_sntp_ev_spin_inv scfg x c ev sy :
  (forall time, ev <> MG_SNTP_REPLY time) ->
  backoff_ms scfg 0 = 0 -> spin_inv sy -> spin_inv (mgos_sntp_ev scfg x c ev sy).
Proof.
  intros Hnr Hb Hinv. destruct ev as [| time | | | | n]; try exact Hinv.
  - exfalso. apply (Hnr time). reflexivity.
  - cbn [mgos_sntp_ev].
    destruct (nc (s_state sy)) as [c'|]; [|exact Hinv].
    destruct (Nat.eqb c' c); [|exact Hinv].
    apply (mgos_sntp_retry_spin_inv scfg x
             {| s_state := set_nc None (s_state sy); outside := outside sy |} Hb Hinv).
Qed.

Lemma dispatch_spin_inv scfg e x sy sy' :
  backoff_ms scfg 0 = 0 -> is_reply e = false ->
  spin_inv sy -> dispatch scfg e x sy = Some sy' -> spin_inv sy'.
Proof.
  intros Hb Hnr Hinv Hd.
  destruct e as [f arg | ev | id | c ev]; cbn [dispatch] in Hd.
  - injection Hd as <-. exact Hinv.
  - destruct (net_handler (outside sy)); [|discriminate]. injection Hd as <-.
    destruct ev; cbn [mgos_sntp_net_ev]; try exact Hinv.
    apply mgos_sntp_retry_spin_inv; assumption.
  - destruct (timer_armed id (outside sy)); [|discriminate]. injection Hd as <-.
    apply (mgos_sntp_retry_timer_cb_spin_inv scfg x
             {| s_state := s_state sy; outside := mgos_clear_timer id (outside sy) |} Hb).
    destruct Hinv as (Hs & Hr & Hall). split; [exact Hs|]. split; [exact Hr|].
    unfold mgos_clear_timer. cbn [outside timers set_timers].
    apply Forall_forall. intros t Hin. apply filter_In in Hin as [Hin _].
    rewrite Forall_forall in Hall. apply Hall. exact Hin.
  - destruct (sntp_conn_live c (outside sy)); [|discriminate].
    assert (G : spin_inv (mgos_sntp_ev scfg x c ev sy)).
    { apply mgos_sntp_ev_spin_inv; try assumption.
      intros time ->. discriminate. }
    destruct ev as [| time | | | | n]; injection Hd as <-; exact G.
Qed.

(** X11. With [retry_min <= 0 <= retry_max], and [retry_min * 1000] and
    [retry_max * 1000] both within [int], the backoff never starts:
    doubling 0 gives 0, so before the first sync [retry_timeout_ms] stays
    0 and every timer is armed with a delay of 0 ms, whatever the random
    draw: attempts follow each other without any pause. *)
Theorem zero_minimum_never_backs_off scfg es sy :
  retry_min scfg <= 0 <= retry_max scfg ->
  Int.in_range (retry_min scfg * 1000) -> Int.in_range (retry_max scfg * 1000) ->
  failures es = true ->
  run scfg es (boot scfg) = Some sy ->
  retry_timeout_ms (s_state sy) = 0 /\
  Forall (fun t => snd t = 0) (timers (outside sy)).
Proof.
  intros Hb Hmin Hmax Hf Hr.
  pose proof (backoff_ms_0 scfg Hb Hmin Hmax) as Hz.
  assert (H0 : spin_inv (boot scfg)).
  { unfold spin_inv, boot, mgos_sntp_init.
    destruct (enable scfg); [destruct (server scfg)|]; cbn; repeat split; constructor. }
  assert (Hrun : forall es sy0 sy1, failures es = true -> spin_inv sy0 ->
                   run scfg es sy0 = Some sy1 -> spin_inv sy1).
  { clear es sy Hf Hr H0. induction es as [| [e x] es IH]; intros sy0 sy1 Hf Hi Hr;
      cbn [run] in Hr.
    - injection Hr as <-. exact Hi.
    - cbn in Hf. apply andb_prop in Hf as [He Hf]. apply negb_true_iff in He.
      destruct (dispatch scfg e x sy0) as [sy2|] eqn:Hd; [|discriminate].
      apply (IH sy2 sy1 Hf); [|exact Hr].
      apply (dispatch_spin_inv scfg e x sy0 sy2 Hz He Hi Hd). }
  destruct (Hrun es _ sy Hf H0 Hr) as (_ & Hrto & Hall).
  split; assumption.
Qed.

Lemma zero_minimum_never_backs_off_witness :
  retry_timeout_ms (s_state after_three_spins) = 0 /\
  timers (outside after_three_spins) = [(4, 0)].
Proof.
  destruct (zero_minimum_never_backs_off zero_min_cfg three_failures after_three_spins)
    as [Hr _].
  - cbn. lia.
  - unfold Int.in_range, Int.INT_MIN, Int.INT_MAX. cbn. lia.
  - unfold Int.in_range, Int.INT_MIN, Int.INT_MAX. cbn. lia.
  - reflexivity.
  - reflexivity.
  - split; [exact Hr | reflexivity].
Defined.

(** ** Two clock steps in a row *)

Lemma mgos_time_change_cb_nth delta mgr i c :
  nth_error mgr i = Some c ->
  nth_error (mgos_time_change_cb delta mgr) i =
  Some (if Qgtb (ev_timer_time c) 0
        then set_ev_timer_time (ev_timer_time c + delta)%Q c else c).
Proof.
  intros H. unfold mgos_time_change_cb. rewrite nth_error_map, H. reflexivity.
Qed.

(** X12. Two clock steps in a row add up on a deadline that stays
    strictly positive in between; a deadline that the first step brings
    to 0 or below is frozen there and the second step does not move it;
    a deadline that was not strictly positive is moved by neither. *)
Theorem time_change_twice (d1 d2 : Q) (mgr : list mg_connection) (i : nat)
        (c : mg_connection) :
  nth_error mgr i = Some c ->
  let t := ev_timer_time c in
  exists c',
    nth_error (mgos_time_change_cb d2 (mgos_time_change_cb d1 mgr)) i = Some c' /\
    conn_id c' = conn_id c /\ flags c' = flags c /\ handler c' = handler c /\
    ((0 < t)%Q -> (0 < t + d1)%Q -> ev_timer_time c' = (t + d1 + d2)%Q) /\
    ((0 < t)%Q -> (t + d1 <= 0)%Q -> ev_timer_time c' = (t + d1)%Q) /\
    ((t <= 0)%Q -> c' = c).
Proof.
  intros Hn. cbv zeta.
  pose proof (mgos_time_change_cb_nth d1 mgr i c Hn) as H1.
  pose proof (mgos_time_change_cb_nth d2 _ i _ H1) as H2.
  eexists. split; [exact H2|].
  destruct (Qgtb (ev_timer_time c) 0) eqn:E1.
  - apply Qgtb_true in E1. cbn [ev_timer_time set_ev_timer_time].
    destruct (Qgtb (ev_timer_time c + d1) 0) eqn:E2.
    + apply Qgtb_true in E2. cbn. repeat split.
      * intros _ Hle. exfalso. apply (Qlt_not_le _ _ E2). exact Hle.
      * intros Hle. exfalso. apply (Qlt_not_le _ _ E1). exact Hle.
    + apply Qgtb_false in E2. cbn. repeat split.
      * intros _ Hlt. exfalso. apply (Qlt_not_le _ _ Hlt). exact E2.
      * intros Hle. exfalso. apply (Qlt_not_le _ _ E1). exact Hle.
  - assert (E1' := E1). apply Qgtb_false in E1. rewrite E1'.
    repeat split.
    + intros Hlt. exfalso. apply (Qlt_not_le _ _ Hlt). exact E1.
    + intros Hlt. exfalso. apply (Qlt_not_le _ _ Hlt). exact E1.
Qed.

(** A backward step of 20 s on a deadline of 12 s freezes it at -8 s. *)
Lemma time_change_twice_witness :
  exists c',
    nth_error (mgos_time_change_cb (5 # 1) (mgos_time_change_cb ((-20) # 1) sample_mgr)) 0
      = Some c' /\
    ev_timer_time c' = ((12 # 1) + ((-20) # 1))%Q.
Proof.
  destruct (time_change_twice ((-20) # 1) (5 # 1) sample_mgr 0 _ eq_refl)
    as (c' & Hn & _ & _ & _ & _ & Hfrozen & _).
  exists c'. split; [exact Hn|]. apply Hfrozen; [reflexivity | discriminate].
Defined.

(** ** Error events *)

Lemma close_flag_bits (f : Z) (j : Z) :
  Z.testbit (Z.lor f MG_F_CLOSE_IMMEDIATELY) j = Z.testbit f j || (j =? 11).
Proof.
  rewrite Z.lor_spec. f_equal. change MG_F_CLOSE_IMMEDIATELY with (2 ^ 11).
  destruct (Z.lt_ge_cases j 0) as [Hneg | Hpos].
  - rewrite Z.testbit_neg_r by exact Hneg. symmetry. apply Z.eqb_neq. lia.
  - rewrite Z.pow2_bits_eqb by lia. apply Z.eqb_sym.
Qed.

Lemma or_flags_nth c w i k :
  nth_error (conns w) i = Some k ->
  nth_error (conns (or_flags c MG_F_CLOSE_IMMEDIATELY w)) i =
  Some (if Nat.eqb (conn_id k) c
        then set_flags (Z.lor (flags k) MG_F_CLOSE_IMMEDIATELY) k else k).
Proof.
  intros H. unfold or_flags. cbn [conns set_conns]. rewrite nth_error_map, H. reflexivity.
Qed.

(** X13. A malformed reply or a failure only asks for the session to be
    closed: the module state, the timers, the clock and the observer
    calls are untouched, every other connection is left as it is, and the
    session keeps its identity, its deadline and all its flags, gaining
    the close flag (bit 11) and no other. *)
Theorem error_event_only_flags scfg x c ev sy :
  ev = MG_SNTP_MALFORMED_REPLY \/ ev = MG_SNTP_FAILED ->
  let sy' := mgos_sntp_ev scfg x c ev sy in
  s_state sy' = s_state sy /\
  timers (outside sy') = timers (outside sy) /\
  sys_time (outside sy') = sys_time (outside sy) /\
  calls (outside sy') = calls (outside sy) /\
  connects (outside sy') = connects (outside sy) /\
  List.length (conns (outside sy')) = List.length (conns (outside sy)) /\
  forall i k, nth_error (conns (outside sy)) i = Some k ->
    exists k',
      nth_error (conns (outside sy')) i = Some k' /\
      conn_id k' = conn_id k /\
      ev_timer_time k' = ev_timer_time k /\
      handler k' = handler k /\
      (conn_id k <> c -> k' = k) /\
      (conn_id k = c ->
       forall j, Z.testbit (flags k') j = Z.testbit (flags k) j || (j =? 11)).
Proof.
  intros Hev. cbv zeta.
  assert (E : mgos_sntp_ev scfg x c ev sy =
              {| s_state := s_state sy;
                 outside := or_flags c MG_F_CLOSE_IMMEDIATELY (outside sy) |})
    by (destruct Hev as [-> | ->]; reflexivity).
  rewrite E. cbn [s_state outside].
  repeat (split; [reflexivity|]).
  split; [unfold or_flags; cbn [conns set_conns]; apply length_map|].
  intros i k Hk. rewrite (or_flags_nth c (outside sy) i k Hk).
  eexists. split; [reflexivity|].
  destruct (Nat.eqb_spec (conn_id k) c) as [Hid | Hid].
  - cbn. repeat split.
    + intros Hne. contradiction.
    + intros _ j. apply close_flag_bits.
  - repeat split. intros Heq. contradiction.
Qed.

Lemma error_event_only_flags_witness :
  map flags (conns (outside (mgos_sntp_ev steady_cfg mid_draw 2%nat MG_SNTP_FAILED sample_sys)))
    = [0; 2052; 0] /\
  s_state (mgos_sntp_ev steady_cfg mid_draw 2%nat MG_SNTP_FAILED sample_sys)
    = s_state sample_sys.
Proof.
  destruct (error_event_only_flags steady_cfg mid_draw 2%nat MG_SNTP_FAILED sample_sys)
    as (Hs & _).
  - right. reflexivity.
  - split; [reflexivity | exact Hs].
Defined.

(* ------------------------------------------------------------------ *)
(** ** Initialisation *)

(** C8. Initialisation returns the ok code when the feature is disabled,
    and the error code when the feature is enabled and no server address
    is configured; a missing address, absent or empty in the
    configuration, reaches the module as the NULL pointer, the only form
    of it the code knows.  In the error case the state is left as it was,
    and after a boot that failed this way no timer is ever armed and no
    session ever started. *)
Theorem init_reports_missing_server scfg sy :
  (enable scfg = false -> mgos_sntp_init scfg sy = (MGOS_INIT_OK, sy)) /\
  (enable scfg = true -> server scfg = None ->
   mgos_sntp_init scfg sy = (MGOS_INIT_SNTP_INIT_FAILED, sy)) /\
  (fst (mgos_sntp_init scfg sy) = MGOS_INIT_SNTP_INIT_FAILED ->
   snd (mgos_sntp_init scfg sy) = sy) /\
  (enable scfg = true -> server scfg = None ->
   forall es sy',
     run scfg es (boot scfg) = Some sy' ->
     timers (outside sy') = [] /\
     retry_timer_id (s_state sy') = MGOS_INVALID_TIMER_ID /\
     nc (s_state sy') = None /\
     conns (outside sy') = [] /\
     connects (outside sy') = []).
Proof.
  split; [|split; [|split]].
  - intros He. unfold mgos_sntp_init. rewrite He. reflexivity.
  - intros He Hs. unfold mgos_sntp_init. rewrite He, Hs. reflexivity.
  - unfold mgos_sntp_init.
    destruct (enable scfg); [destruct (server scfg)|]; cbn;
      try discriminate; reflexivity.
  - intros He Hs es sy' Hr.
    destruct (run_connects_inv scfg es _ _ (boot_connects_inv scfg) Hr) as [_ Hnone].
    destruct (Hnone Hs) as (Hk & Ht & Hc & _).
    pose proof (run_timer_inv scfg es _ _ (boot_timer_inv scfg) Hr) as (_ & Htim).
    pose proof (run_one_session scfg es _ _ (boot_one_session scfg) Hr) as Hone.
    split; [exact Ht|]. split.
    + destruct Htim as [[Hid _] | (d & Hd & _)]; [exact Hid|].
      rewrite Ht in Hd. discriminate.
    + split; [|split; assumption].
      unfold one_session, sessions, tracked in Hone. rewrite Hc in Hone.
      destruct (nc (s_state sy')); [discriminate | reflexivity].
Qed.

Lemma init_reports_missing_server_witness :
  mgos_sntp_init disabled_cfg sys0 = (MGOS_INIT_OK, sys0) /\
  mgos_sntp_init no_server_cfg sys0 = (MGOS_INIT_SNTP_INIT_FAILED, sys0) /\
  timers (outside (mgos_sntp_add_time_change_cb (Cb_extern 1) 0%nat (boot no_server_cfg))) = [].
Proof.
  destruct (init_reports_missing_server disabled_cfg sys0) as (Hd & _).
  destruct (init_reports_missing_server no_server_cfg sys0) as (_ & Hn & _ & Hrun).
  split; [apply Hd; reflexivity|].
  split; [apply Hn; reflexivity|].
  apply (Hrun eq_refl eq_refl [(Ev_add_cb (Cb_extern 1) 0%nat, mid_draw)]
              (mgos_sntp_add_time_change_cb (Cb_extern 1) 0%nat (boot no_server_cfg))
              eq_refl).
Defined.
